(** * Constraint compilation and role commands of the PostgreSQL backend

    A shallow embedding of [edb/pgsql/deltadbops.py] (constraint descriptors,
    the multi-constraint ADD/DROP/RENAME commands and the inheritable
    constraint command groups) and of [edb/pgsql/dbops/roles.py] (the role
    commands), followed by the properties established about them. *)

From Stdlib Require Import String Ascii List Bool Arith Lia.
From Stdlib Require Import DecimalString DecimalNat.
Import ListNotations.

Open Scope string_scope.

(** ** Python values: exceptions, [str.join], [enumerate], [str(int)] *)

Module Py.

(** The exceptions the embedded code can raise. *)
Inductive exn : Type :=
| ValueError (msg : string)
| TypeError (msg : string)
| IndexError (msg : string).

(** A computation that returns a value or raises. *)
Inductive result (A : Type) : Type :=
| Ok (a : A)
| Raise (e : exn).

Arguments Ok {A} a.
Arguments Raise {A} e.

Definition bind {A B : Type} (m : result A) (k : A -> result B) : result B :=
  match m with
  | Ok a => k a
  | Raise e => Raise e
  end.

(** [sep.join(xs)] *)
Definition join (sep : string) (xs : list string) : string :=
  String.concat sep xs.

(** [str(i)] for a non-negative [int]. *)
Definition str_of_nat (i : nat) : string :=
  NilEmpty.string_of_uint (Nat.to_uint i).

(** [enumerate(xs)], counting from [start]. *)
Fixpoint enumerate_from {A : Type} (start : nat) (xs : list A)
  : list (nat * A) :=
  match xs with
  | [] => []
  | x :: xs' => (start, x) :: enumerate_from (S start) xs'
  end.

Definition enumerate {A : Type} (xs : list A) : list (nat * A) :=
  enumerate_from 0 xs.

End Py.

Import Py.

Notation "x <- m ;; k" := (Py.bind m (fun x => k))
  (at level 61, m at next level, right associativity).

(** A schema-qualified backend name, [(schema, name)]. *)
Definition QName : Type := (string * string)%type.

(** The schema-level constraint object, as far as the descriptors read it:
    [constraint.id] (in its [str] form), [constraint.get_name(schema)] and
    [constraint.get_delegated(schema)]. *)
Record SchemaConstraint : Type := {
  id : string;
  get_name : string;
  get_delegated : bool
}.

(** The functions of [edb.pgsql.common] and of the [dbops] base classes that
    the embedded code calls and whose definitions lie outside the embedded
    files.  They are kept abstract. *)
Class PgCommon : Type := {
  (** [common.edgedb_name_to_pg_name]: the name mangler. *)
  edgedb_name_to_pg_name : string -> string;
  (** [common.quote_ident] *)
  quote_ident : string -> string;
  (** [common.quote_literal] *)
  quote_literal : string -> string;
  (** [common.get_backend_name(schema, constraint, catenate=False, aspect=a)] *)
  get_backend_name : SchemaConstraint -> string -> QName;
  (** ['{table}'.format(table=c.get_subject_name())] for the subject *)
  get_subject_name : QName -> string;
  (** ['{table[i]}'.format(table=c.get_subject_name())] for the subject *)
  get_subject_name_item : QName -> nat -> string
}.

(** ** [edb/pgsql/deltadbops.py] *)

(** [expr['exprdata']]: the rendered texts of one expression fragment. *)
Record ExprData : Type := {
  plain : string;
  old : string;
  new : string;
  plain_chunks : list string
}.

(** One element of [exprdata]. *)
Record Expr : Type := {
  exprdata : ExprData;
  is_trivial : bool
}.

(** [SchemaConstraintDomainConstraint] *)
Record SchemaConstraintDomainConstraint : Type := {
  dom_constraint : SchemaConstraint;
  domain_name : QName;
  dom_exprdata : list Expr
}.

(** [SchemaConstraintTableConstraint] *)
Record SchemaConstraintTableConstraint : Type := {
  _constraint : SchemaConstraint;
  _subject_name : QName;
  _exprdata : list Expr;
  _scope : string;
  _type : string
}.

(** What [constraint_code] returns: a [str] or a [list] of [str]. *)
Inductive PyCode : Type :=
| PyStr (s : string)
| PyList (l : list string).

(** [isinstance(exprs, list) and len(exprs) > 1] *)
Definition is_multi_code (exprs : PyCode) : bool :=
  match exprs with
  | PyStr _ => false
  | PyList l => (1 <? List.length l)%nat
  end.

Section ConstraintDescriptor.

Context {pg : PgCommon}.

(** [ConstraintCommon.__init__] copies these from the schema object. *)
Definition _constr_id (c : SchemaConstraintTableConstraint) : string :=
  id (_constraint c).

Definition schema_constraint_name (c : SchemaConstraintTableConstraint)
  : string :=
  get_name (_constraint c).

Definition delegated (c : SchemaConstraintTableConstraint) : bool :=
  get_delegated (_constraint c).

(** [ConstraintCommon.raw_constraint_name] *)
Definition raw_constraint_name (c : SchemaConstraintTableConstraint)
  : string :=
  _constr_id c ++ ";" ++ "schemaconstr".

(** [ConstraintCommon.constraint_name] *)
Definition constraint_name (c : SchemaConstraintTableConstraint)
           (quote : bool) : string :=
  let name := raw_constraint_name c in
  let name := edgedb_name_to_pg_name name in
  if quote then quote_ident name else name.

(** [SchemaConstraintDomainConstraint.constraint_code].  [_exprdata] is
    the list of expressions; the second branch subscripts that list with
    the string ['exprdata'], which Python rejects. *)
Definition domain_constraint_code (c : SchemaConstraintDomainConstraint)
  : result string :=
  expr <- match dom_exprdata c with
          | [e] => Ok (plain (exprdata e))
          | _ => Raise (TypeError
                   "list indices must be integers or slices, not str")
          end ;;
  Ok ("CHECK (" ++ expr ++ ")").

(** The text of one fragment of a table-wide unique constraint
    (the body of the loop of [constraint_code]). *)
Definition unique_expr_code (expr : Expr) : string :=
  if is_trivial expr then
    let e := join ", " (plain_chunks (exprdata expr)) in
    "UNIQUE (" ++ e ++ ")"
  else
    let chunks := plain_chunks (exprdata expr) in
    let e := join ", " (map (fun chunk => chunk ++ " WITH =") chunks) in
    "EXCLUDE (" ++ e ++ ")".

(** [SchemaConstraintTableConstraint.constraint_code] *)
Definition constraint_code (c : SchemaConstraintTableConstraint)
  : result PyCode :=
  if _scope c =? "row" then
    let expr :=
      match _exprdata c with
      | [e] => plain (exprdata e)
      | es =>
          let exprs := map (fun e => plain (exprdata e)) es in
          "(" ++ join ") AND (" exprs ++ ")"
      end in
    Ok (PyStr ("CHECK (" ++ expr ++ ")"))
  else
    if negb (_type c =? "unique") then
      Raise (ValueError ("unexpected constraint type: " ++ _type c))
    else
      Ok (PyList (map unique_expr_code (_exprdata c))).

(** [SchemaConstraintTableConstraint.numbered_constraint_name] *)
Definition numbered_constraint_name (c : SchemaConstraintTableConstraint)
           (i : nat) (quote : bool) : string :=
  let raw_name := raw_constraint_name c in
  let name := edgedb_name_to_pg_name (raw_name ++ "#" ++ str_of_nat i) in
  if quote then quote_ident name else name.

(** [SchemaConstraintTableConstraint.get_trigger_procname] *)
Definition get_trigger_procname (c : SchemaConstraintTableConstraint)
  : QName :=
  get_backend_name (_constraint c) "trigproc".

(** [SchemaConstraintTableConstraint.get_trigger_condition] *)
Definition get_trigger_condition (c : SchemaConstraintTableConstraint)
  : string :=
  let chunks :=
    map (fun expr =>
           old (exprdata expr) ++ " IS DISTINCT FROM " ++ new (exprdata expr))
        (_exprdata c) in
  match chunks with
  | [chunk] => chunk
  | _ => "(" ++ join ") OR (" chunks ++ ")"
  end.

(** [SchemaConstraintTableConstraint.is_multiconstraint] *)
Definition is_multiconstraint (c : SchemaConstraintTableConstraint) : bool :=
  negb (_scope c =? "row") && (1 <? List.length (_exprdata c))%nat.

(** [SchemaConstraintTableConstraint.is_natively_inherited] *)
Definition is_natively_inherited (c : SchemaConstraintTableConstraint)
  : bool :=
  _type c =? "check".

End ConstraintDescriptor.

(** ** Trigger procedure text *)

(** The newline character and a run of [n] blanks, for the literal template
    of [get_trigger_proc_text]. *)
Definition nl : string := String (ascii_of_nat 10) EmptyString.

Fixpoint spaces (n : nat) : string :=
  match n with
  | O => EmptyString
  | S n' => String " "%char (spaces n')
  end.

Section TriggerProcText.

Context {pg : PgCommon}.

(** The template of [get_trigger_proc_text] after [str.format], for one
    expression. *)
Definition trigger_proc_chunk (subject : QName)
           (plain_expr new_expr constr errmsg : string) : string :=
  nl ++ spaces 16 ++ "PERFORM"
  ++ nl ++ spaces 20 ++ "TRUE"
  ++ nl ++ spaces 18 ++ "FROM"
  ++ nl ++ spaces 20 ++ get_subject_name subject
  ++ nl ++ spaces 18 ++ "WHERE"
  ++ nl ++ spaces 20 ++ plain_expr ++ " = " ++ new_expr ++ ";"
  ++ nl ++ spaces 16 ++ "IF FOUND THEN"
  ++ nl ++ spaces 18 ++ "RAISE unique_violation"
  ++ nl ++ spaces 22 ++ "USING"
  ++ nl ++ spaces 26 ++ "TABLE = '" ++ get_subject_name_item subject 1 ++ "',"
  ++ nl ++ spaces 26 ++ "SCHEMA = '" ++ get_subject_name_item subject 0 ++ "',"
  ++ nl ++ spaces 26 ++ "CONSTRAINT = '" ++ constr ++ "',"
  ++ nl ++ spaces 26 ++ "MESSAGE = '" ++ errmsg ++ "',"
  ++ nl ++ spaces 26 ++ "DETAIL = 'Key (" ++ plain_expr
  ++ ") already exists.';"
  ++ nl ++ spaces 16 ++ "END IF;"
  ++ nl ++ spaces 12.

(** [SchemaConstraintTableConstraint.get_trigger_proc_text] *)
Definition get_trigger_proc_text (c : SchemaConstraintTableConstraint)
  : string :=
  let constr_name := constraint_name c true in
  let raw_constr_name := constraint_name c false in
  let errmsg :=
    "duplicate key value violates unique " ++ "constraint " ++ constr_name in
  let subject_table := _subject_name c in
  let chunks :=
    map (fun expr =>
           let exprdata := exprdata expr in
           trigger_proc_chunk subject_table (plain exprdata) (new exprdata)
                              raw_constr_name errmsg)
        (_exprdata c) in
  "BEGIN" ++ nl ++ join (nl ++ nl) chunks ++ nl ++ "RETURN NEW;" ++ nl
  ++ "END;".

End TriggerProcText.

(** ** The [dbops] objects and commands the constraint groups build *)

(** The [procedure] of a trigger: a qualified name, or the [str] the
    rename and drop paths pass. *)
Inductive ProcRef : Type :=
| ProcName (name : QName)
| ProcStr (s : string).

(** [dbops.Trigger] *)
Record Trigger : Type := {
  trigger_name : string;
  table_name : QName;
  events : list string;
  procedure : ProcRef;
  condition : option string;
  is_constraint : bool;
  inherit : bool
}.

(** [dbops.Function] *)
Record Function : Type := {
  function_name : QName;
  text : string;
  volatility : string;
  returns : string;
  language : string
}.

(** The sub-commands added to a [dbops.AlterTable]. *)
Inductive AlterTableFragment : Type :=
| AlterTableAddMultiConstraint (constraint : SchemaConstraintTableConstraint)
| AlterTableDropMultiConstraint (constraint : SchemaConstraintTableConstraint).

(** [dbops.AlterTableRenameConstraintSimple] *)
Record AlterTableRenameConstraintSimple : Type := {
  rename_table : QName;
  old_name : string;
  new_name : string
}.

(** The commands added to an inheritable-constraint command group. *)
Inductive Command : Type :=
| AlterTable (name : QName) (commands : list AlterTableFragment)
| AlterTableRenameMultiConstraint
    (name : QName) (constraint new_constraint : SchemaConstraintTableConstraint)
| CreateOrReplaceFunction (func : Function)
| RenameFunction (name : QName) (args : list string) (new_name : QName)
| DropFunction (name : QName) (args : list string)
| CreateTrigger (trigger : Trigger)
| DisableTrigger (trigger : Trigger) (self_only : bool)
| AlterTriggerRenameTo (trigger : Trigger) (new_name : string)
| DropTrigger (trigger : Trigger).

(** ** Command groups as a state monad over the command list

    A method of [AlterTableInheritableConstraintBase] reads and extends
    [self.commands]; [Gen A] is such a method returning an [A]. *)

Definition Gen (A : Type) : Type := list Command -> A * list Command.

Definition ret {A : Type} (a : A) : Gen A := fun cmds => (a, cmds).

Definition seq_gen {A B : Type} (m : Gen A) (k : A -> Gen B) : Gen B :=
  fun cmds => let (a, cmds') := m cmds in k a cmds'.

Notation "m >> k" := (seq_gen m (fun _ => k))
  (at level 62, right associativity).

(** Modelled from the spec: [CommandGroup.add(command)], the ordered
    container of commands of the generic command framework ([dbops], outside
    the embedded files); [add_command] appends one command. *)
Definition add_command (cmd : Command) : Gen unit :=
  fun cmds => (tt, (cmds ++ [cmd])%list).

(** Modelled from the spec: [add_commands] of the same ordered container
    appends the given commands in their order. *)
Definition add_commands (new_cmds : list Command) : Gen unit :=
  fun cmds => (tt, (cmds ++ new_cmds)%list).

(** The commands a method leaves in a group that was empty before. *)
Definition emitted {A : Type} (m : Gen A) : list Command := snd (m []).

Section MultiConstraintCommands.

Context {pg : PgCommon}.

(** [AlterTableAddMultiConstraint.code] *)
Definition AlterTableAddMultiConstraint_code
           (constraint : SchemaConstraintTableConstraint) : result string :=
  exprs <- constraint_code constraint ;;
  match exprs with
  | PyList l =>
      if (1 <? List.length l)%nat then
        let chunks :=
          map (fun '(i, expr) =>
                 let name := numbered_constraint_name constraint i true in
                 "ADD CONSTRAINT " ++ name ++ " " ++ expr)
              (enumerate l) in
        Ok (join ", " chunks)
      else
        match l with
        | [] => Raise (IndexError "list index out of range")
        | expr :: _ =>
            let name := constraint_name constraint true in
            Ok ("ADD CONSTRAINT " ++ name ++ " " ++ expr)
        end
  | PyStr expr =>
      let name := constraint_name constraint true in
      Ok ("ADD CONSTRAINT " ++ name ++ " " ++ expr)
  end.

(** [AlterTableDropMultiConstraint.code] *)
Definition AlterTableDropMultiConstraint_code
           (constraint : SchemaConstraintTableConstraint) : result string :=
  exprs <- constraint_code constraint ;;
  match exprs with
  | PyList l =>
      if (1 <? List.length l)%nat then
        let chunks :=
          map (fun '(i, _) =>
                 let name := numbered_constraint_name constraint i true in
                 "DROP CONSTRAINT " ++ name)
              (enumerate l) in
        Ok (join ", " chunks)
      else
        let name := constraint_name constraint true in
        Ok ("DROP CONSTRAINT " ++ name)
  | PyStr _ =>
      let name := constraint_name constraint true in
      Ok ("DROP CONSTRAINT " ++ name)
  end.

(** [AlterTableRenameMultiConstraint.generate]: the simple renames the
    group adds. *)
Definition AlterTableRenameMultiConstraint_generate
           (name : QName) (c nc : SchemaConstraintTableConstraint)
  : result (list AlterTableRenameConstraintSimple) :=
  exprs <- constraint_code c ;;
  match exprs with
  | PyList l =>
      if (1 <? List.length l)%nat then
        Ok (map (fun '(i, _) =>
                   {| rename_table := name;
                      old_name := numbered_constraint_name c i false;
                      new_name := numbered_constraint_name nc i false |})
                (enumerate l))
      else
        Ok [{| rename_table := name;
               old_name := constraint_name c false;
               new_name := constraint_name nc false |}]
  | PyStr _ =>
      Ok [{| rename_table := name;
             old_name := constraint_name c false;
             new_name := constraint_name nc false |}]
  end.

End MultiConstraintCommands.

(** ** [AlterTableInheritableConstraintBase] and its four subclasses

    [self_name] is [self.name], the table the group alters. *)

Section InheritableConstraint.

Context {pg : PgCommon}.

(** [create_constr_trigger] *)
Definition create_constr_trigger (table_name : QName)
           (constraint : SchemaConstraintTableConstraint)
           (proc_name : QName) : list Command :=
  let cname := raw_constraint_name constraint in
  let ins_trigger_name := edgedb_name_to_pg_name (cname ++ "_instrigger") in
  let ins_trigger :=
    {| trigger_name := ins_trigger_name; table_name := table_name;
       events := ["insert"]; procedure := ProcName proc_name;
       condition := None; is_constraint := true; inherit := true |} in
  let cr_ins_trigger := CreateTrigger ins_trigger in
  let disable_ins_trigger := DisableTrigger ins_trigger true in
  let upd_trigger_name := edgedb_name_to_pg_name (cname ++ "_updtrigger") in
  let condition := get_trigger_condition constraint in
  let upd_trigger :=
    {| trigger_name := upd_trigger_name; table_name := table_name;
       events := ["update"]; procedure := ProcName proc_name;
       condition := Some condition; is_constraint := true;
       inherit := true |} in
  let cr_upd_trigger := CreateTrigger upd_trigger in
  let disable_upd_trigger := DisableTrigger upd_trigger true in
  [cr_ins_trigger; disable_ins_trigger; cr_upd_trigger; disable_upd_trigger].

(** [rename_constr_trigger] *)
Definition rename_constr_trigger (table_name : QName)
           (constraint new_constr : SchemaConstraintTableConstraint)
  : list Command :=
  let cname := raw_constraint_name constraint in
  let ncname := raw_constraint_name new_constr in
  let ins_trigger_name := edgedb_name_to_pg_name (cname ++ "_instrigger") in
  let new_ins_trg_name := edgedb_name_to_pg_name (ncname ++ "_instrigger") in
  let ins_trigger :=
    {| trigger_name := ins_trigger_name; table_name := table_name;
       events := ["insert"]; procedure := ProcStr "null";
       condition := None; is_constraint := true; inherit := true |} in
  let rn_ins_trigger := AlterTriggerRenameTo ins_trigger new_ins_trg_name in
  let upd_trigger_name := edgedb_name_to_pg_name (cname ++ "_updtrigger") in
  let new_upd_trg_name := edgedb_name_to_pg_name (ncname ++ "_updtrigger") in
  let upd_trigger :=
    {| trigger_name := upd_trigger_name; table_name := table_name;
       events := ["update"]; procedure := ProcStr "null";
       condition := None; is_constraint := true; inherit := true |} in
  let rn_upd_trigger := AlterTriggerRenameTo upd_trigger new_upd_trg_name in
  [rn_ins_trigger; rn_upd_trigger].

(** [drop_constr_trigger] *)
Definition drop_constr_trigger (table_name : QName)
           (constraint : SchemaConstraintTableConstraint) : list Command :=
  let cname := raw_constraint_name constraint in
  let ins_trigger_name := edgedb_name_to_pg_name (cname ++ "_instrigger") in
  let ins_trigger :=
    {| trigger_name := ins_trigger_name; table_name := table_name;
       events := ["insert"]; procedure := ProcStr "null";
       condition := None; is_constraint := true; inherit := true |} in
  let drop_ins_trigger := DropTrigger ins_trigger in
  let upd_trigger_name := edgedb_name_to_pg_name (cname ++ "_updtrigger") in
  let upd_trigger :=
    {| trigger_name := upd_trigger_name; table_name := table_name;
       events := ["update"]; procedure := ProcStr "null";
       condition := None; is_constraint := true; inherit := true |} in
  let drop_upd_trigger := DropTrigger upd_trigger in
  [drop_ins_trigger; drop_upd_trigger].

(** [create_constr_trigger_function] *)
Definition create_constr_trigger_function
           (constraint : SchemaConstraintTableConstraint) : list Command :=
  let proc_name := get_trigger_procname constraint in
  let proc_text := get_trigger_proc_text constraint in
  let func :=
    {| function_name := proc_name; text := proc_text;
       volatility := "stable"; returns := "trigger";
       language := "plpgsql" |} in
  [CreateOrReplaceFunction func].

(** [drop_constr_trigger_function] *)
Definition drop_constr_trigger_function (proc_name : QName) : list Command :=
  [DropFunction proc_name []].

(** [create_constraint] *)
Definition create_constraint (self_name : QName)
           (constraint : SchemaConstraintTableConstraint) : Gen unit :=
  let add_constr := AlterTableAddMultiConstraint constraint in
  let my_alter := AlterTable self_name [add_constr] in
  add_command my_alter >>
  if negb (is_natively_inherited constraint) then
    add_commands (create_constr_trigger_function constraint) >>
    let proc_name := get_trigger_procname constraint in
    let cr_trigger := create_constr_trigger self_name constraint proc_name in
    add_commands cr_trigger
  else ret tt.

(** [rename_constraint] *)
Definition rename_constraint (self_name : QName)
           (old_constraint new_constraint : SchemaConstraintTableConstraint)
  : Gen unit :=
  let rename_constr :=
    AlterTableRenameMultiConstraint self_name old_constraint new_constraint in
  add_command rename_constr >>
  if negb (is_natively_inherited old_constraint) then
    let old_proc_name := get_trigger_procname old_constraint in
    let new_proc_name := get_trigger_procname new_constraint in
    let rename_proc := RenameFunction old_proc_name [] new_proc_name in
    add_command rename_proc >>
    add_commands (create_constr_trigger_function new_constraint) >>
    let mv_trigger :=
      rename_constr_trigger self_name old_constraint new_constraint in
    add_commands mv_trigger
  else ret tt.

(** [drop_constraint] *)
Definition drop_constraint (self_name : QName)
           (constraint : SchemaConstraintTableConstraint) : Gen unit :=
  (if negb (is_natively_inherited constraint) then
     add_commands (drop_constr_trigger self_name constraint) >>
     let proc_name := get_trigger_procname constraint in
     add_commands (drop_constr_trigger_function proc_name)
   else ret tt) >>
  let drop_constr := AlterTableDropMultiConstraint constraint in
  let my_alter := AlterTable self_name [drop_constr] in
  add_command my_alter.

(** [alter_constraint] *)
Definition alter_constraint (self_name : QName)
           (old_constraint new_constraint : SchemaConstraintTableConstraint)
  : Gen unit :=
  if delegated old_constraint && negb (delegated new_constraint) then
    create_constraint self_name new_constraint
  else if negb (delegated old_constraint) && delegated new_constraint then
    drop_constraint self_name old_constraint
  else if negb (delegated new_constraint) then
    drop_constraint self_name old_constraint >>
    create_constraint self_name new_constraint
  else ret tt.

(** [AlterTableAddInheritableConstraint.generate], up to the rendering
    done by [super().generate(block)]. *)
Definition AlterTableAddInheritableConstraint_generate
           (self_name : QName) (constraint : SchemaConstraintTableConstraint)
  : Gen unit :=
  if negb (delegated constraint) then create_constraint self_name constraint
  else ret tt.

(** [AlterTableRenameInheritableConstraint.generate] *)
Definition AlterTableRenameInheritableConstraint_generate
           (self_name : QName)
           (constraint new_constraint : SchemaConstraintTableConstraint)
  : Gen unit :=
  if negb (delegated constraint) then
    rename_constraint self_name constraint new_constraint
  else ret tt.

(** [AlterTableAlterInheritableConstraint.generate] *)
Definition AlterTableAlterInheritableConstraint_generate
           (self_name : QName)
           (constraint new_constraint : SchemaConstraintTableConstraint)
  : Gen unit :=
  alter_constraint self_name constraint new_constraint.

(** [AlterTableDropInheritableConstraint.generate] *)
Definition AlterTableDropInheritableConstraint_generate
           (self_name : QName) (constraint : SchemaConstraintTableConstraint)
  : Gen unit :=
  if negb (delegated constraint) then drop_constraint self_name constraint
  else ret tt.

End InheritableConstraint.

(** ** [edb/pgsql/dbops/roles.py] *)

(** [Role] *)
Record Role : Type := {
  role_name : string;
  allow_login : bool;
  password : option string;
  is_superuser : bool;
  membership : option (list string);
  metadata : option string
}.

Section RoleCommands.

Context {pg : PgCommon}.

(** [Role.get_id] *)
Definition Role_get_id (r : Role) : string := quote_ident (role_name r).

(** The [password] local of [RoleCommand._render]:
    [if self.object.password:] holds for a non-empty [str] only. *)
Definition password_clause (r : Role) : string :=
  match password r with
  | Some (String a p) => "PASSWORD " ++ quote_literal (String a p)
  | Some EmptyString | None => "PASSWORD NULL"
  end.

(** [RoleCommand._render] *)
Definition _render (r : Role) : string :=
  let superuser := if is_superuser r then "SUPERUSER" else "" in
  let login := if allow_login r then "LOGIN" else "NOLOGIN" in
  let password := password_clause r in
  "ROLE " ++ Role_get_id r ++ " "
  ++ superuser ++ " " ++ login ++ " " ++ password.

(** [CreateRole.code] *)
Definition CreateRole_code (r : Role) : string :=
  let membership :=
    match membership r with
    | Some (m :: ms) => "IN ROLE " ++ join ", " (map quote_ident (m :: ms))
    | Some [] | None => ""
    end in
  "CREATE " ++ _render r ++ " " ++ membership.

(** [AlterRole.code] *)
Definition AlterRole_code (r : Role) : string :=
  "ALTER " ++ _render r.

End RoleCommands.

(** ** Auxiliary notions used in the statements *)

(** The role [r] with another password. *)
Definition with_password (r : Role) (p : option string) : Role :=
  {| role_name := role_name r; allow_login := allow_login r;
     password := p; is_superuser := is_superuser r;
     membership := membership r; metadata := metadata r |}.

(** [constraint_code] returns a list that the ADD, DROP and RENAME commands
    split into numbered pieces. *)
Definition yields_multi (c : SchemaConstraintTableConstraint) : bool :=
  match constraint_code c with
  | Ok exprs => is_multi_code exprs
  | Raise _ => false
  end.

Section StatedClaims.

Context {pg : PgCommon}.

(** The mangler leaves every name of at most [limit] characters as it is. *)
Definition identity_within (limit : nat) : Prop :=
  forall s, String.length s <= limit -> edgedb_name_to_pg_name s = s.



(** Single/Multi selection keyed by scope and fragment count alone. *)
Definition multi_iff_tablewide_many
           (c : SchemaConstraintTableConstraint) : Prop :=
  yields_multi c = true <->
  (_scope c <> "row" /\ 1 < List.length (_exprdata c)).

End StatedClaims.

(** ** Concrete backends and descriptors used in the examples *)

(** The double-quote character. *)
Definition dquote : string := String (ascii_of_nat 34) EmptyString.

(** A backend whose mangler leaves names alone (as a mangler does for names
    within the identifier limit) and whose quoting wraps in quote marks. *)
Definition plain_common : PgCommon :=
  {| edgedb_name_to_pg_name := fun s => s;
     quote_ident := fun s => dquote ++ s ++ dquote;
     quote_literal := fun s => "'" ++ s ++ "'";
     get_backend_name := fun c aspect => ("edgedb", id c ++ "_" ++ aspect);
     get_subject_name := fun t => fst t ++ "." ++ snd t;
     get_subject_name_item := fun t i => match i with O => fst t | _ => snd t end
  |}.

Definition mk_expr (p o n : string) (chunks : list string) (trivial : bool)
  : Expr :=
  {| exprdata := {| plain := p; old := o; new := n; plain_chunks := chunks |};
     is_trivial := trivial |}.

Definition accounts : QName := ("public", "accounts").

Definition expr_ab : Expr := mk_expr "a, b" "OLD.a, OLD.b" "NEW.a, NEW.b"
                                     ["a"; "b"] true.

Definition expr_lower : Expr :=
  mk_expr "lower(a)" "lower(OLD.a)" "lower(NEW.a)" ["lower(a)"] false.

Definition expr_pos : Expr := mk_expr "a > 0" "OLD.a > 0" "NEW.a > 0" ["a"] false.

Definition expr_small : Expr :=
  mk_expr "a < 10" "OLD.a < 10" "NEW.a < 10" ["a"] false.

Definition mk_constraint (cid : string) (deleg : bool) : SchemaConstraint :=
  {| id := cid; get_name := "std::exclusive"; get_delegated := deleg |}.

(** A table-wide unique constraint with two fragments. *)
Definition unique2 : SchemaConstraintTableConstraint :=
  {| _constraint := mk_constraint "c1" false; _subject_name := accounts;
     _exprdata := [expr_ab; expr_lower]; _scope := "relation";
     _type := "unique" |}.

(** A table-wide unique constraint with two fragments and a longer id. *)
Definition unique2_long : SchemaConstraintTableConstraint :=
  {| _constraint := mk_constraint "constr01" false; _subject_name := accounts;
     _exprdata := [expr_ab; expr_lower]; _scope := "relation";
     _type := "unique" |}.

(** A table-wide unique constraint with two fragments whose id has the 36
    characters of a UUID. *)
Definition unique2_uuid : SchemaConstraintTableConstraint :=
  {| _constraint := mk_constraint "6f1c8a52-0b7e-11ea-9d3c-0242ac120003" false;
     _subject_name := accounts;
     _exprdata := [expr_ab; expr_lower]; _scope := "relation";
     _type := "unique" |}.

(** The same constraint as [unique2], delegated. *)
Definition unique2_delegated : SchemaConstraintTableConstraint :=
  {| _constraint := mk_constraint "c1" true; _subject_name := accounts;
     _exprdata := [expr_ab; expr_lower]; _scope := "relation";
     _type := "unique" |}.

(** A table-wide descriptor of kind [check] with two fragments. *)
Definition tablewide_check2 : SchemaConstraintTableConstraint :=
  {| _constraint := mk_constraint "c2" false; _subject_name := accounts;
     _exprdata := [expr_pos; expr_small]; _scope := "relation";
     _type := "check" |}.

(** A row-scope check constraint over a table, with two fragments. *)
Definition row_check2 : SchemaConstraintTableConstraint :=
  {| _constraint := mk_constraint "c3" false; _subject_name := accounts;
     _exprdata := [expr_pos; expr_small]; _scope := "row";
     _type := "check" |}.

(** A constraint over a domain, with the same two fragments. *)
Definition domain_check2 : SchemaConstraintDomainConstraint :=
  {| dom_constraint := mk_constraint "c3" false;
     domain_name := ("public", "small_int_t");
     dom_exprdata := [expr_pos; expr_small] |}.


Definition app_user (p : option string) : Role :=
  {| role_name := "app_user"; allow_login := true; password := p;
     is_superuser := false; membership := Some ["staff"]; metadata := None |}.

(** ** Comments on the physical constraints ([generate_extra]) *)

(** [MultiConstraintItem] *)
Record MultiConstraintItem : Type := {
  item_constraint : SchemaConstraintTableConstraint;
  index : nat
}.

(** The [object] of a [dbops.Comment]: the constraint itself or one
    numbered piece of it. *)
Inductive CommentObject : Type :=
| OnConstraint (constraint : SchemaConstraintTableConstraint)
| OnItem (item : MultiConstraintItem).

(** [dbops.Comment(object, text)] *)
Record Comment : Type := {
  comment_object : CommentObject;
  comment_text : string
}.

Section Comments.

Context {pg : PgCommon}.

(** [get_subject_type] of the [dbops] constraint base class, whose
    definition lies outside the embedded files. *)
Variable get_subject_type : SchemaConstraintTableConstraint -> string.

(** [MultiConstraintItem.get_id] *)
Definition MultiConstraintItem_get_id (item : MultiConstraintItem) : string :=
  let raw_name := raw_constraint_name (item_constraint item) in
  let name :=
    edgedb_name_to_pg_name (raw_name ++ "#" ++ str_of_nat (index item)) in
  let name := quote_ident name in
  name ++ " ON " ++ get_subject_type (item_constraint item) ++ " "
  ++ get_subject_name (_subject_name (item_constraint item)).

(** [ConstraintCommon.generate_extra]: the comment it generates. *)
Definition ConstraintCommon_generate_extra
           (c : SchemaConstraintTableConstraint) : Comment :=
  let text := raw_constraint_name c in
  {| comment_object := OnConstraint c; comment_text := text |}.

(** [AlterTableAddMultiConstraint.generate_extra]: the comments it
    generates, in order. *)
Definition AlterTableAddMultiConstraint_generate_extra
           (constraint : SchemaConstraintTableConstraint)
  : result (list Comment) :=
  exprs <- constraint_code constraint ;;
  let constr_name := raw_constraint_name constraint in
  match exprs with
  | PyList l =>
      if (1 <? List.length l)%nat then
        Ok (map (fun '(i, _) =>
                   let item :=
                     {| item_constraint := constraint; index := i |} in
                   {| comment_object := OnItem item;
                      comment_text := constr_name |})
                (enumerate l))
      else
        Ok [{| comment_object := OnConstraint constraint;
               comment_text := constr_name |}]
  | PyStr _ =>
      Ok [{| comment_object := OnConstraint constraint;
             comment_text := constr_name |}]
  end.

(** [AlterTableRenameMultiConstraint.generate_extra]: the comments it
    generates, in order. *)
Definition AlterTableRenameMultiConstraint_generate_extra
           (constraint new_constraint : SchemaConstraintTableConstraint)
  : result (list Comment) :=
  exprs <- constraint_code new_constraint ;;
  let constr_name := raw_constraint_name new_constraint in
  match exprs with
  | PyList l =>
      if (1 <? List.length l)%nat then
        Ok (map (fun '(i, _) =>
                   let item :=
                     {| item_constraint := new_constraint; index := i |} in
                   {| comment_object := OnItem item;
                      comment_text := constr_name |})
                (enumerate l))
      else
        Ok [{| comment_object := OnConstraint new_constraint;
               comment_text := constr_name |}]
  | PyStr _ =>
      Ok [{| comment_object := OnConstraint new_constraint;
             comment_text := constr_name |}]
  end.

End Comments.

(** The role [r] with another membership. *)
Definition with_membership (r : Role) (m : option (list string)) : Role :=
  {| role_name := role_name r; allow_login := allow_login r;
     password := password r; is_superuser := is_superuser r;
     membership := m; metadata := metadata r |}.

(** ** Observations on a command list *)

(** A computation raised. *)
Definition raises {A : Type} (r : result A) : Prop := exists e, r = Raise e.

(** A trigger as the backend identifies it: its table and its name. *)
Definition trigger_key (t : Trigger) : QName * string :=
  (table_name t, trigger_name t).

Definition created_triggers (cmds : list Command) : list (QName * string) :=
  flat_map (fun cmd => match cmd with
                       | CreateTrigger t => [trigger_key t]
                       | _ => []
                       end) cmds.

Definition disabled_triggers (cmds : list Command)
  : list (QName * string * bool) :=
  flat_map (fun cmd => match cmd with
                       | DisableTrigger t self_only =>
                           [(trigger_key t, self_only)]
                       | _ => []
                       end) cmds.

Definition dropped_triggers (cmds : list Command) : list (QName * string) :=
  flat_map (fun cmd => match cmd with
                       | DropTrigger t => [trigger_key t]
                       | _ => []
                       end) cmds.

(** Renamed triggers: the old key and the new name. *)
Definition renamed_triggers (cmds : list Command)
  : list (QName * string * string) :=
  flat_map (fun cmd => match cmd with
                       | AlterTriggerRenameTo t new_name =>
                           [(trigger_key t, new_name)]
                       | _ => []
                       end) cmds.

Definition created_functions (cmds : list Command) : list QName :=
  flat_map (fun cmd => match cmd with
                       | CreateOrReplaceFunction f => [function_name f]
                       | _ => []
                       end) cmds.

Definition dropped_functions (cmds : list Command) : list QName :=
  flat_map (fun cmd => match cmd with
                       | DropFunction name _ => [name]
                       | _ => []
                       end) cmds.

Definition renamed_functions (cmds : list Command) : list (QName * QName) :=
  flat_map (fun cmd => match cmd with
                       | RenameFunction name _ new_name => [(name, new_name)]
                       | _ => []
                       end) cmds.

(** The constraints an ALTER TABLE of the list adds, with their table. *)
Definition added_constraints (cmds : list Command)
  : list (QName * SchemaConstraintTableConstraint) :=
  flat_map (fun cmd =>
              match cmd with
              | AlterTable name subs =>
                  flat_map (fun sub =>
                              match sub with
                              | AlterTableAddMultiConstraint c => [(name, c)]
                              | _ => []
                              end) subs
              | _ => []
              end) cmds.

(** The constraints an ALTER TABLE of the list drops, with their table. *)
Definition dropped_constraints (cmds : list Command)
  : list (QName * SchemaConstraintTableConstraint) :=
  flat_map (fun cmd =>
              match cmd with
              | AlterTable name subs =>
                  flat_map (fun sub =>
                              match sub with
                              | AlterTableDropMultiConstraint c => [(name, c)]
                              | _ => []
                              end) subs
              | _ => []
              end) cmds.

(** The command touches a trigger or a trigger function. *)
Definition is_trigger_command (cmd : Command) : bool :=
  match cmd with
  | AlterTable _ _ | AlterTableRenameMultiConstraint _ _ _ => false
  | _ => true
  end.

(** More descriptors for the examples. *)

(** A table-wide unique constraint without fragments. *)
Definition unique0 : SchemaConstraintTableConstraint :=
  {| _constraint := mk_constraint "c0" false; _subject_name := accounts;
     _exprdata := []; _scope := "relation"; _type := "unique" |}.

(** A table-wide unique constraint with one fragment. *)
Definition unique1 : SchemaConstraintTableConstraint :=
  {| _constraint := mk_constraint "c4" false; _subject_name := accounts;
     _exprdata := [expr_lower]; _scope := "relation"; _type := "unique" |}.

(** A constraint over a domain with one fragment. *)
Definition domain_check1 : SchemaConstraintDomainConstraint :=
  {| dom_constraint := mk_constraint "c5" false;
     domain_name := ("public", "positive_t");
     dom_exprdata := [expr_pos] |}.

(** * Properties *)

(** ** Strings and enumeration *)

Lemma append_inv_head (s a b : string) : s ++ a = s ++ b -> a = b.
Proof.
  induction s as [|ch s IH]; simpl; intros E.
  - exact E.
  - injection E as E. now apply IH.
Qed.

Lemma append_assoc (a b c : string) : (a ++ b) ++ c = a ++ (b ++ c).
Proof.
  induction a as [|ch a IH]; simpl.
  - reflexivity.
  - now rewrite IH.
Qed.

Lemma length_append (a b : string) :
  String.length (a ++ b) = String.length a + String.length b.
Proof.
  induction a as [|ch a IH]; simpl.
  - reflexivity.
  - now rewrite IH.
Qed.


Lemma enumerate_from_map {A B : Type} (f : A -> B) (xs : list A) (n : nat) :
  enumerate_from n (map f xs)
  = map (fun p => (fst p, f (snd p))) (enumerate_from n xs).
Proof.
  revert n. induction xs as [|x xs IH]; intros n; simpl.
  - reflexivity.
  - now rewrite IH.
Qed.

Lemma enumerate_from_length {A : Type} (xs : list A) (n : nat) :
  List.length (enumerate_from n xs) = List.length xs.
Proof.
  revert n. induction xs as [|x xs IH]; intros n; simpl; auto.
Qed.

Lemma enumerate_from_fst {A : Type} (xs : list A) (n : nat) :
  map fst (enumerate_from n xs) = seq n (List.length xs).
Proof.
  revert n. induction xs as [|x xs IH]; intros n; simpl.
  - reflexivity.
  - now rewrite IH.
Qed.

(** ** Command groups only grow *)

Section GroupsAppend.

Context {pg : PgCommon}.

Lemma add_command_snd (cmd : Command) (cmds : list Command) :
  snd (add_command cmd cmds) = (cmds ++ [cmd])%list.
Proof. reflexivity. Qed.

Lemma create_constraint_appends (self_name : QName)
      (c : SchemaConstraintTableConstraint) (cmds : list Command) :
  snd (create_constraint self_name c cmds)
  = (cmds ++ emitted (create_constraint self_name c))%list.
Proof.
  unfold emitted, create_constraint, seq_gen, add_command, add_commands, ret.
  destruct (is_natively_inherited c); simpl.
  - reflexivity.
  - now rewrite <- !app_assoc.
Qed.

Lemma drop_constraint_appends (self_name : QName)
      (c : SchemaConstraintTableConstraint) (cmds : list Command) :
  snd (drop_constraint self_name c cmds)
  = (cmds ++ emitted (drop_constraint self_name c))%list.
Proof.
  unfold emitted, drop_constraint, seq_gen, add_command, add_commands, ret.
  destruct (is_natively_inherited c); simpl.
  - reflexivity.
  - now rewrite <- !app_assoc.
Qed.

Lemma seq_gen_snd {A B : Type} (m : Gen A) (k : Gen B)
      (cmds : list Command) :
  snd ((m >> k) cmds) = snd (k (snd (m cmds))).
Proof.
  unfold seq_gen. now destruct (m cmds).
Qed.

End GroupsAppend.

(** ** The lifecycle transitions *)

Section Lifecycle.

Context {pg : PgCommon}.

(** C1.  Alter transition matrix: whatever commands the group already
    holds, the Alter transition appends nothing when both descriptors are
    delegated, the commands of Create(new) when only the old one is
    delegated, the commands of Drop(old) when only the new one is
    delegated, and the commands of Drop(old) followed by those of
    Create(new) when neither is delegated. *)
Theorem alter_transition_matrix
        (self_name : QName)
        (old_c new_c : SchemaConstraintTableConstraint)
        (cmds : list Command) :
  snd (AlterTableAlterInheritableConstraint_generate
         self_name old_c new_c cmds)
  = (cmds ++
     match delegated old_c, delegated new_c with
     | true, true => []
     | true, false =>
         emitted (AlterTableAddInheritableConstraint_generate
                    self_name new_c)
     | false, true =>
         emitted (AlterTableDropInheritableConstraint_generate
                    self_name old_c)
     | false, false =>
         emitted (AlterTableDropInheritableConstraint_generate
                    self_name old_c)
         ++ emitted (AlterTableAddInheritableConstraint_generate
                       self_name new_c)
     end)%list.
Proof.
  unfold AlterTableAlterInheritableConstraint_generate, alter_constraint,
    AlterTableAddInheritableConstraint_generate,
    AlterTableDropInheritableConstraint_generate.
  destruct (delegated old_c) eqn:Eo, (delegated new_c) eqn:En; simpl.
  - now rewrite app_nil_r.
  - apply create_constraint_appends.
  - apply drop_constraint_appends.
  - rewrite seq_gen_snd, create_constraint_appends, drop_constraint_appends.
    now rewrite app_assoc.
Qed.

(** C2.  Delegation suppresses materialization: for a delegated
    descriptor the Create, Rename and Drop transitions each emit an empty
    command group (and leave a group that already holds commands as it
    is). *)
Theorem delegated_emits_nothing
        (self_name : QName)
        (c new_c : SchemaConstraintTableConstraint)
        (Hdelegated : delegated c = true) :
  emitted (AlterTableAddInheritableConstraint_generate self_name c) = []
  /\ emitted (AlterTableRenameInheritableConstraint_generate
                self_name c new_c) = []
  /\ emitted (AlterTableDropInheritableConstraint_generate self_name c) = []
  /\ forall cmds,
      snd (AlterTableAddInheritableConstraint_generate self_name c cmds)
      = cmds
      /\ snd (AlterTableRenameInheritableConstraint_generate
                self_name c new_c cmds) = cmds
      /\ snd (AlterTableDropInheritableConstraint_generate
                self_name c cmds) = cmds.
Proof.
  unfold emitted, AlterTableAddInheritableConstraint_generate,
    AlterTableRenameInheritableConstraint_generate,
    AlterTableDropInheritableConstraint_generate.
  rewrite Hdelegated. simpl. repeat split; reflexivity.
Qed.

(** C5.  Create of a non-delegated, not natively inherited descriptor
    emits, in this order: the ALTER TABLE holding the ADD CONSTRAINT
    command, the create-or-replace of the trigger function with the
    generated body, the creation of the insert trigger (a constraint
    trigger, inherited, bound to that function) immediately followed by
    its self-only disable, and the creation of the update trigger (firing
    condition [get_trigger_condition]) immediately followed by its
    self-only disable. *)
Theorem create_emits_constraint_function_triggers
        (self_name : QName) (c : SchemaConstraintTableConstraint)
        (Hnot_delegated : delegated c = false)
        (Hnot_native : is_natively_inherited c = false) :
  let func :=
    {| function_name := get_trigger_procname c;
       text := get_trigger_proc_text c;
       volatility := "stable"; returns := "trigger";
       language := "plpgsql" |} in
  let ins_trigger :=
    {| trigger_name :=
         edgedb_name_to_pg_name (raw_constraint_name c ++ "_instrigger");
       table_name := self_name; events := ["insert"];
       procedure := ProcName (get_trigger_procname c);
       condition := None; is_constraint := true; inherit := true |} in
  let upd_trigger :=
    {| trigger_name :=
         edgedb_name_to_pg_name (raw_constraint_name c ++ "_updtrigger");
       table_name := self_name; events := ["update"];
       procedure := ProcName (get_trigger_procname c);
       condition := Some (get_trigger_condition c);
       is_constraint := true; inherit := true |} in
  emitted (AlterTableAddInheritableConstraint_generate self_name c)
  = [ AlterTable self_name [AlterTableAddMultiConstraint c];
      CreateOrReplaceFunction func;
      CreateTrigger ins_trigger;
      DisableTrigger ins_trigger true;
      CreateTrigger upd_trigger;
      DisableTrigger upd_trigger true ].
Proof.
  unfold emitted, AlterTableAddInheritableConstraint_generate,
    create_constraint.
  rewrite Hnot_delegated. simpl.
  unfold seq_gen. simpl. rewrite Hnot_native. reflexivity.
Qed.

(** C6.  Drop of a non-delegated, not natively inherited descriptor emits
    the drop of the insert trigger, the drop of the update trigger, then
    the drop of the trigger function, and the ALTER TABLE holding the DROP
    CONSTRAINT command last. *)
Theorem drop_emits_triggers_function_constraint
        (self_name : QName) (c : SchemaConstraintTableConstraint)
        (Hnot_delegated : delegated c = false)
        (Hnot_native : is_natively_inherited c = false) :
  let ins_trigger :=
    {| trigger_name :=
         edgedb_name_to_pg_name (raw_constraint_name c ++ "_instrigger");
       table_name := self_name; events := ["insert"];
       procedure := ProcStr "null";
       condition := None; is_constraint := true; inherit := true |} in
  let upd_trigger :=
    {| trigger_name :=
         edgedb_name_to_pg_name (raw_constraint_name c ++ "_updtrigger");
       table_name := self_name; events := ["update"];
       procedure := ProcStr "null";
       condition := None; is_constraint := true; inherit := true |} in
  emitted (AlterTableDropInheritableConstraint_generate self_name c)
  = [ DropTrigger ins_trigger;
      DropTrigger upd_trigger;
      DropFunction (get_trigger_procname c) [];
      AlterTable self_name [AlterTableDropMultiConstraint c] ].
Proof.
  unfold emitted, AlterTableDropInheritableConstraint_generate,
    drop_constraint.
  rewrite Hnot_delegated. simpl.
  unfold seq_gen. simpl. rewrite Hnot_native. reflexivity.
Qed.

End Lifecycle.

(** ** Constraint names *)

Section Naming.

Context {pg : PgCommon}.




End Naming.

(** ** Rendering of the constraint text *)

Section Rendering.

Context {pg : PgCommon}.

Lemma constraint_code_row (c : SchemaConstraintTableConstraint) :
  _scope c = "row" ->
  constraint_code c
  = Ok (PyStr ("CHECK ("
               ++ match _exprdata c with
                  | [e] => plain (exprdata e)
                  | es => "(" ++ join ") AND ("
                                   (map (fun e => plain (exprdata e)) es)
                          ++ ")"
                  end ++ ")")).
Proof.
  intros Hrow. unfold constraint_code. rewrite Hrow. reflexivity.
Qed.

Lemma constraint_code_unique (c : SchemaConstraintTableConstraint) :
  _scope c <> "row" -> _type c = "unique" ->
  constraint_code c = Ok (PyList (map unique_expr_code (_exprdata c))).
Proof.
  intros Hscope Htype. unfold constraint_code.
  apply String.eqb_neq in Hscope. rewrite Hscope, Htype. reflexivity.
Qed.

Lemma constraint_code_invalid_kind (c : SchemaConstraintTableConstraint) :
  _scope c <> "row" -> _type c <> "unique" ->
  constraint_code c
  = Raise (ValueError ("unexpected constraint type: " ++ _type c)).
Proof.
  intros Hscope Htype. unfold constraint_code.
  apply String.eqb_neq in Hscope. apply String.eqb_neq in Htype.
  rewrite Hscope, Htype. reflexivity.
Qed.

Lemma yields_multi_iff (c : SchemaConstraintTableConstraint) :
  yields_multi c = true <->
  (_scope c <> "row" /\ _type c = "unique"
   /\ 1 < List.length (_exprdata c)).
Proof.
  unfold yields_multi, constraint_code.
  destruct (_scope c =? "row") eqn:Escope.
  - apply String.eqb_eq in Escope. simpl. split; [discriminate|].
    intros [Hn _]. contradiction.
  - apply String.eqb_neq in Escope.
    destruct (_type c =? "unique") eqn:Etype; simpl.
    + apply String.eqb_eq in Etype. rewrite length_map, Nat.ltb_lt.
      tauto.
    + apply String.eqb_neq in Etype. split; [discriminate|].
      intros [_ [Ht _]]. contradiction.
Qed.

Lemma is_multiconstraint_iff (c : SchemaConstraintTableConstraint) :
  is_multiconstraint c = true <->
  (_scope c <> "row" /\ 1 < List.length (_exprdata c)).
Proof.
  unfold is_multiconstraint.
  rewrite andb_true_iff, negb_true_iff, String.eqb_neq, Nat.ltb_lt.
  reflexivity.
Qed.

Lemma yields_multi_is_multiconstraint (c : SchemaConstraintTableConstraint) :
  _type c = "unique" -> yields_multi c = is_multiconstraint c.
Proof.
  intros Htype. unfold yields_multi, is_multiconstraint, constraint_code.
  rewrite Htype. destruct (_scope c =? "row"); simpl.
  - reflexivity.
  - now rewrite length_map.
Qed.

(** C4 (as amended).  A row-scope descriptor always yields a single
    constraint text, added and dropped under the base physical name;
    [constraint_code] yields a multi-constraint exactly when the scope is
    table-wide, the kind is unique and there is more than one fragment,
    and then the ADD and DROP commands hold one clause per fragment under
    the numbered names; a table-wide unique descriptor with exactly one
    fragment is added and dropped in a single clause under the base
    physical name. *)
Theorem single_multi_selection (c : SchemaConstraintTableConstraint) :
  (_scope c = "row" ->
   exists text,
     constraint_code c = Ok (PyStr text)
     /\ yields_multi c = false
     /\ AlterTableAddMultiConstraint_code c
        = Ok ("ADD CONSTRAINT " ++ constraint_name c true ++ " " ++ text)
     /\ AlterTableDropMultiConstraint_code c
        = Ok ("DROP CONSTRAINT " ++ constraint_name c true))
  /\ (yields_multi c = true <->
      (_scope c <> "row" /\ _type c = "unique"
       /\ 1 < List.length (_exprdata c)))
  /\ (yields_multi c = true ->
      AlterTableAddMultiConstraint_code c
      = Ok (join ", "
              (map (fun p =>
                      "ADD CONSTRAINT "
                      ++ numbered_constraint_name c (fst p) true
                      ++ " " ++ unique_expr_code (snd p))
                   (enumerate (_exprdata c))))
      /\ AlterTableDropMultiConstraint_code c
         = Ok (join ", "
                 (map (fun p =>
                         "DROP CONSTRAINT "
                         ++ numbered_constraint_name c (fst p) true)
                      (enumerate (_exprdata c))))
      /\ map fst (enumerate (_exprdata c))
         = seq 0 (List.length (_exprdata c)))
  /\ (forall e,
         _scope c <> "row" -> _type c = "unique" -> _exprdata c = [e] ->
         yields_multi c = false
         /\ AlterTableAddMultiConstraint_code c
            = Ok ("ADD CONSTRAINT " ++ constraint_name c true ++ " "
                  ++ unique_expr_code e)
         /\ AlterTableDropMultiConstraint_code c
            = Ok ("DROP CONSTRAINT " ++ constraint_name c true)).
Proof.
  split; [|split; [|split]].
  - intros Hrow. eexists.
    unfold yields_multi, AlterTableAddMultiConstraint_code,
      AlterTableDropMultiConstraint_code.
    rewrite (constraint_code_row c Hrow). simpl. repeat split; reflexivity.
  - apply yields_multi_iff.
  - intros Hmulti. pose proof Hmulti as Hm.
    apply yields_multi_iff in Hm. destruct Hm as [Hscope [Htype Hlen]].
    unfold AlterTableAddMultiConstraint_code,
      AlterTableDropMultiConstraint_code.
    rewrite (constraint_code_unique c Hscope Htype). simpl.
    rewrite length_map.
    apply Nat.ltb_lt in Hlen. rewrite Hlen.
    unfold enumerate. rewrite enumerate_from_map, !map_map. simpl.
    split; [|split].
    + reflexivity.
    + reflexivity.
    + apply enumerate_from_fst.
  - intros e Hscope Htype Hone.
    unfold yields_multi, AlterTableAddMultiConstraint_code,
      AlterTableDropMultiConstraint_code.
    rewrite (constraint_code_unique c Hscope Htype), Hone. simpl.
    repeat split; reflexivity.
Qed.

(** C7.  In a table-wide unique descriptor every fragment is rendered on
    its own, at its position: a trivial fragment as
    [UNIQUE (<plain_chunks joined by ", ">)], any other fragment as
    [EXCLUDE (<each chunk followed by " WITH =", joined by ", ">)]. *)
Theorem unique_fragment_rendering
        (c : SchemaConstraintTableConstraint)
        (Hscope : _scope c <> "row") (Htype : _type c = "unique") :
  exists texts,
    constraint_code c = Ok (PyList texts)
    /\ List.length texts = List.length (_exprdata c)
    /\ forall i expr,
        nth_error (_exprdata c) i = Some expr ->
        nth_error texts i
        = Some (if is_trivial expr
                then "UNIQUE ("
                     ++ join ", " (plain_chunks (exprdata expr)) ++ ")"
                else "EXCLUDE ("
                     ++ join ", "
                          (map (fun chunk => chunk ++ " WITH =")
                               (plain_chunks (exprdata expr)))
                     ++ ")").
Proof.
  exists (map unique_expr_code (_exprdata c)).
  split; [now apply constraint_code_unique|].
  split; [apply length_map|].
  intros i expr Hnth. rewrite nth_error_map, Hnth. reflexivity.
Qed.

(** C9.  A table-wide descriptor whose kind is not unique has no
    constraint text: [constraint_code] raises, naming the kind, and so do
    the ADD, DROP and RENAME commands that ask for the text. *)
Theorem tablewide_non_unique_raises
        (c : SchemaConstraintTableConstraint)
        (Hscope : _scope c <> "row") (Htype : _type c <> "unique") :
  let err := ValueError ("unexpected constraint type: " ++ _type c) in
  constraint_code c = Raise err
  /\ AlterTableAddMultiConstraint_code c = Raise err
  /\ AlterTableDropMultiConstraint_code c = Raise err
  /\ forall name nc,
      AlterTableRenameMultiConstraint_generate name c nc = Raise err.
Proof.
  unfold AlterTableAddMultiConstraint_code,
    AlterTableDropMultiConstraint_code,
    AlterTableRenameMultiConstraint_generate.
  rewrite (constraint_code_invalid_kind c Hscope Htype). simpl.
  repeat split; reflexivity.
Qed.

End Rendering.

(** ** Row-scope constraints over tables and domains *)

Lemma row_check_conjoins (c : SchemaConstraintTableConstraint) :
  _scope c = "row" ->
  (forall e, _exprdata c = [e] ->
             constraint_code c
             = Ok (PyStr ("CHECK (" ++ plain (exprdata e) ++ ")")))
  /\ (1 < List.length (_exprdata c) ->
      constraint_code c
      = Ok (PyStr ("CHECK ((" ++ join ") AND ("
                                   (map (fun e => plain (exprdata e))
                                        (_exprdata c))
                   ++ "))"))).
Proof.
  intros Hrow. rewrite (constraint_code_row c Hrow). split.
  - intros e ->. reflexivity.
  - intros Hlen. destruct (_exprdata c) as [|e1 [|e2 es]]; simpl in Hlen;
      try lia.
    now rewrite !append_assoc.
Qed.

Lemma domain_constraint_code_one (c : SchemaConstraintDomainConstraint)
      (e : Expr) :
  dom_exprdata c = [e] ->
  domain_constraint_code c = Ok ("CHECK (" ++ plain (exprdata e) ++ ")").
Proof.
  intros E. unfold domain_constraint_code. now rewrite E.
Qed.

Lemma domain_constraint_code_raises (c : SchemaConstraintDomainConstraint) :
  List.length (dom_exprdata c) <> 1 ->
  domain_constraint_code c
  = Raise (TypeError "list indices must be integers or slices, not str").
Proof.
  intros Hlen. unfold domain_constraint_code.
  destruct (dom_exprdata c) as [|e1 [|e2 es]]; simpl in *;
    try reflexivity; lia.
Qed.

(** C8.  Over a domain with two fragments [constraint_code] raises a
    [TypeError] instead of returning the conjunction of the fragments;
    the table descriptor with the same row-scope fragments returns
    [CHECK ((a > 0) AND (a < 10))]. *)
Theorem domain_check_two_fragments_raises :
  domain_constraint_code domain_check2
  = Raise (TypeError "list indices must be integers or slices, not str")
  /\ constraint_code row_check2 = Ok (PyStr "CHECK ((a > 0) AND (a < 10))").
Proof.
  split; reflexivity.
Qed.

(** ** Role commands *)

Section RolePassword.

Context {pg : PgCommon}.

Lemma password_clause_null (r : Role) :
  password r = None \/ password r = Some "" ->
  password_clause r = "PASSWORD NULL".
Proof.
  unfold password_clause. intros [E|E]; now rewrite E.
Qed.

Lemma password_clause_literal (r : Role) (p : string) :
  password r = Some p -> p <> "" ->
  password_clause r = "PASSWORD " ++ quote_literal p.
Proof.
  unfold password_clause. intros E Hp. rewrite E.
  destruct p as [|a p]; [contradiction|reflexivity].
Qed.

(** C10.  In the statements of [CreateRole] and [AlterRole], the text
    after [ROLE <id> <superuser> <login>] is the clause [PASSWORD NULL] when
    the role's password is [None] or the empty string and the clause
    [PASSWORD <quoted literal>] when it is a non-empty string; a role with
    the empty password renders exactly as the same role with no password. *)
Theorem role_password_rendering (r : Role) :
  let pre :=
    "ROLE " ++ quote_ident (role_name r) ++ " "
    ++ (if is_superuser r then "SUPERUSER" else "") ++ " "
    ++ (if allow_login r then "LOGIN" else "NOLOGIN") ++ " " in
  (password r = None \/ password r = Some "" ->
   (exists post,
       CreateRole_code r = ("CREATE " ++ pre) ++ "PASSWORD NULL" ++ post)
   /\ AlterRole_code r = ("ALTER " ++ pre) ++ "PASSWORD NULL")
  /\ (forall p, password r = Some p -> p <> "" ->
      (exists post,
          CreateRole_code r
          = ("CREATE " ++ pre) ++ ("PASSWORD " ++ quote_literal p) ++ post)
      /\ AlterRole_code r
         = ("ALTER " ++ pre) ++ "PASSWORD " ++ quote_literal p)
  /\ CreateRole_code (with_password r (Some ""))
     = CreateRole_code (with_password r None)
  /\ AlterRole_code (with_password r (Some ""))
     = AlterRole_code (with_password r None).
Proof.
  intros pre. subst pre.
  split; [|split; [|split]].
  - intros Hnull. unfold CreateRole_code, AlterRole_code, _render, Role_get_id.
    rewrite (password_clause_null r Hnull). split.
    + eexists. simpl. rewrite !append_assoc. simpl.
      repeat (rewrite ?append_assoc; simpl). reflexivity.
    + simpl. repeat (rewrite ?append_assoc; simpl). reflexivity.
  - intros p Hsome Hne.
    unfold CreateRole_code, AlterRole_code, _render, Role_get_id.
    rewrite (password_clause_literal r p Hsome Hne). split.
    + eexists. simpl. repeat (rewrite ?append_assoc; simpl). reflexivity.
    + simpl. repeat (rewrite ?append_assoc; simpl). reflexivity.
  - reflexivity.
  - reflexivity.
Qed.

End RolePassword.

(** ** The statements at concrete descriptors *)

Lemma relation_not_row : "relation" <> "row".
Proof. discriminate. Defined.

Lemma check_not_unique : "check" <> "unique".
Proof. discriminate. Defined.

Lemma plain_identity_within (limit : nat) :
  identity_within (pg := plain_common) limit.
Proof. intros s _. reflexivity. Defined.

(** A delegated two-fragment unique constraint emits nothing on Create,
    Rename and Drop. *)
Lemma delegated_emits_nothing_witness :
  delegated unique2_delegated = true
  /\ emitted (AlterTableAddInheritableConstraint_generate
                (pg := plain_common) accounts unique2_delegated) = []
  /\ emitted (AlterTableRenameInheritableConstraint_generate
                (pg := plain_common) accounts unique2_delegated unique2) = []
  /\ emitted (AlterTableDropInheritableConstraint_generate
                (pg := plain_common) accounts unique2_delegated) = [].
Proof.
  split; [reflexivity|].
  destruct (delegated_emits_nothing (pg := plain_common) accounts
              unique2_delegated unique2 eq_refl) as [Ha [Hr [Hd _]]].
  split; [exact Ha|]. split; [exact Hr|exact Hd].
Defined.

(** Create of the two-fragment unique constraint on [accounts] emits six
    commands, the ALTER TABLE first. *)
Lemma create_emits_constraint_function_triggers_witness :
  delegated unique2 = false
  /\ is_natively_inherited unique2 = false
  /\ List.length
       (emitted (AlterTableAddInheritableConstraint_generate
                   (pg := plain_common) accounts unique2)) = 6
  /\ hd_error
       (emitted (AlterTableAddInheritableConstraint_generate
                   (pg := plain_common) accounts unique2))
     = Some (AlterTable accounts [AlterTableAddMultiConstraint unique2]).
Proof.
  split; [reflexivity|]. split; [reflexivity|].
  rewrite (create_emits_constraint_function_triggers (pg := plain_common)
             accounts unique2 eq_refl eq_refl).
  split; reflexivity.
Defined.

(** Drop of the same constraint emits four commands, the ALTER TABLE
    last. *)
Lemma drop_emits_triggers_function_constraint_witness :
  delegated unique2 = false
  /\ is_natively_inherited unique2 = false
  /\ List.length
       (emitted (AlterTableDropInheritableConstraint_generate
                   (pg := plain_common) accounts unique2)) = 4
  /\ last
       (emitted (AlterTableDropInheritableConstraint_generate
                   (pg := plain_common) accounts unique2))
       (DropFunction accounts [])
     = AlterTable accounts [AlterTableDropMultiConstraint unique2].
Proof.
  split; [reflexivity|]. split; [reflexivity|].
  rewrite (drop_emits_triggers_function_constraint (pg := plain_common)
             accounts unique2 eq_refl eq_refl).
  split; reflexivity.
Defined.


(** The selection at a row-scope descriptor, at a two-fragment unique
    descriptor, and the text of the ADD command of the latter. *)
Lemma single_multi_selection_witness :
  yields_multi row_check2 = false
  /\ yields_multi unique2 = true
  /\ AlterTableAddMultiConstraint_code (pg := plain_common) unique2
     = Ok ("ADD CONSTRAINT " ++ dquote ++ "c1;schemaconstr#0" ++ dquote
           ++ " UNIQUE (a, b), ADD CONSTRAINT " ++ dquote
           ++ "c1;schemaconstr#1" ++ dquote ++ " EXCLUDE (lower(a) WITH =)").
Proof.
  destruct (single_multi_selection (pg := plain_common) row_check2)
    as [Hrow _].
  destruct (single_multi_selection (pg := plain_common) unique2)
    as [_ [Hiff [Hmulti _]]].
  split.
  - destruct (Hrow eq_refl) as [text [_ [Hsingle _]]]. exact Hsingle.
  - assert (yields_multi unique2 = true) as Hm.
    { apply Hiff. split; [exact relation_not_row|].
      split; [reflexivity|]. simpl. apply le_n. }
    split; [exact Hm|].
    destruct (Hmulti Hm) as [Hadd _]. rewrite Hadd. reflexivity.
Defined.

(** C4, as stated, fails at a table-wide descriptor of kind [check] with
    two fragments: its scope is table-wide and it has more than one
    fragment, yet [constraint_code] raises and yields no multi-constraint. *)
Lemma multi_iff_tablewide_many_counterexample :
  ~ multi_iff_tablewide_many tablewide_check2.
Proof.
  unfold multi_iff_tablewide_many. intros [_ Hback].
  assert (yields_multi tablewide_check2 = true) as Hm.
  { apply Hback. split; [exact relation_not_row|]. simpl. apply le_n. }
  vm_compute in Hm. discriminate Hm.
Qed.

(** The two fragments of [unique2] render as [UNIQUE (a, b)] and
    [EXCLUDE (lower(a) WITH =)]. *)
Lemma unique_fragment_rendering_witness :
  exists texts,
    constraint_code unique2 = Ok (PyList texts)
    /\ nth_error texts 0 = Some "UNIQUE (a, b)"
    /\ nth_error texts 1 = Some "EXCLUDE (lower(a) WITH =)".
Proof.
  destruct (unique_fragment_rendering unique2 relation_not_row eq_refl)
    as [texts [Hcode [_ Hnth]]].
  exists texts. split; [exact Hcode|]. split.
  - exact (Hnth 0 expr_ab eq_refl).
  - exact (Hnth 1 expr_lower eq_refl).
Defined.

(** A table-wide descriptor of kind [check] has no constraint text. *)
Lemma tablewide_non_unique_raises_witness :
  constraint_code tablewide_check2
  = Raise (ValueError "unexpected constraint type: check")
  /\ AlterTableAddMultiConstraint_code (pg := plain_common) tablewide_check2
     = Raise (ValueError "unexpected constraint type: check").
Proof.
  destruct (tablewide_non_unique_raises (pg := plain_common) tablewide_check2
              relation_not_row check_not_unique) as [Hcode [Hadd _]].
  split; [exact Hcode|exact Hadd].
Defined.

(** [app_user] without a password and with the password [s3]. *)
Lemma role_password_rendering_witness :
  AlterRole_code (pg := plain_common) (app_user None)
  = "ALTER ROLE " ++ dquote ++ "app_user" ++ dquote
    ++ "  LOGIN PASSWORD NULL"
  /\ AlterRole_code (pg := plain_common) (app_user (Some "s3"))
     = "ALTER ROLE " ++ dquote ++ "app_user" ++ dquote
       ++ "  LOGIN PASSWORD 's3'".
Proof.
  split.
  - destruct (role_password_rendering (pg := plain_common) (app_user None))
      as [Hnull _].
    destruct (Hnull (or_introl eq_refl)) as [_ Halter].
    rewrite Halter. reflexivity.
  - destruct (role_password_rendering (pg := plain_common)
                (app_user (Some "s3"))) as [_ [Hlit _]].
    assert ("s3" <> "") as Hne by discriminate.
    destruct (Hlit "s3" eq_refl Hne) as [_ Halter].
    rewrite Halter. reflexivity.
Defined.

(** * Further properties of the embedded code *)

(** ** Lifecycle transitions: rename, native inheritance, composition *)

Section LifecycleMore.

Context {pg : PgCommon}.

Lemma rename_constraint_appends (self_name : QName)
      (c nc : SchemaConstraintTableConstraint) (cmds : list Command) :
  snd (rename_constraint self_name c nc cmds)
  = (cmds ++ emitted (rename_constraint self_name c nc))%list.
Proof.
  unfold emitted, rename_constraint, seq_gen, add_command, add_commands, ret.
  destruct (is_natively_inherited c); simpl.
  - reflexivity.
  - now rewrite <- !app_assoc.
Qed.

(** X1.  Rename of a non-delegated, not natively inherited descriptor
    emits, in this order: the rename of the physical constraint(s), the
    rename of the trigger function from the old to the new procedure name,
    a create-or-replace of the function under the new name with the body
    generated from the new descriptor, and the renames of the insert and of
    the update trigger; the delegation flag and the kind of the new
    descriptor are not consulted. *)
Theorem rename_emits_constraint_function_triggers
        (self_name : QName) (c nc : SchemaConstraintTableConstraint)
        (Hnot_delegated : delegated c = false)
        (Hnot_native : is_natively_inherited c = false) :
  let func :=
    {| function_name := get_trigger_procname nc;
       text := get_trigger_proc_text nc;
       volatility := "stable"; returns := "trigger";
       language := "plpgsql" |} in
  let ins_trigger :=
    {| trigger_name :=
         edgedb_name_to_pg_name (raw_constraint_name c ++ "_instrigger");
       table_name := self_name; events := ["insert"];
       procedure := ProcStr "null";
       condition := None; is_constraint := true; inherit := true |} in
  let upd_trigger :=
    {| trigger_name :=
         edgedb_name_to_pg_name (raw_constraint_name c ++ "_updtrigger");
       table_name := self_name; events := ["update"];
       procedure := ProcStr "null";
       condition := None; is_constraint := true; inherit := true |} in
  emitted (AlterTableRenameInheritableConstraint_generate self_name c nc)
  = [ AlterTableRenameMultiConstraint self_name c nc;
      RenameFunction (get_trigger_procname c) [] (get_trigger_procname nc);
      CreateOrReplaceFunction func;
      AlterTriggerRenameTo
        ins_trigger
        (edgedb_name_to_pg_name (raw_constraint_name nc ++ "_instrigger"));
      AlterTriggerRenameTo
        upd_trigger
        (edgedb_name_to_pg_name (raw_constraint_name nc ++ "_updtrigger")) ].
Proof.
  unfold emitted, AlterTableRenameInheritableConstraint_generate,
    rename_constraint.
  rewrite Hnot_delegated. simpl.
  unfold seq_gen. simpl. rewrite Hnot_native. reflexivity.
Qed.

(** X2.  A non-delegated descriptor of kind [check] is natively inherited:
    Create, Drop and Rename emit the single constraint command and no
    trigger or trigger-function command, whatever the scope. *)
Theorem natively_inherited_emits_constraint_only
        (self_name : QName) (c nc : SchemaConstraintTableConstraint)
        (Hnot_delegated : delegated c = false)
        (Hcheck : _type c = "check") :
  emitted (AlterTableAddInheritableConstraint_generate self_name c)
  = [AlterTable self_name [AlterTableAddMultiConstraint c]]
  /\ emitted (AlterTableDropInheritableConstraint_generate self_name c)
     = [AlterTable self_name [AlterTableDropMultiConstraint c]]
  /\ emitted (AlterTableRenameInheritableConstraint_generate self_name c nc)
     = [AlterTableRenameMultiConstraint self_name c nc].
Proof.
  assert (is_natively_inherited c = true) as Hnative.
  { unfold is_natively_inherited. now rewrite Hcheck. }
  unfold emitted, AlterTableAddInheritableConstraint_generate,
    AlterTableDropInheritableConstraint_generate,
    AlterTableRenameInheritableConstraint_generate,
    create_constraint, drop_constraint, rename_constraint, seq_gen.
  rewrite Hnot_delegated. simpl. rewrite Hnative. simpl.
  repeat split; reflexivity.
Qed.

(** X3.  Each of the four transitions only appends to the group: the
    commands the group already holds stay in place, and the commands
    appended do not depend on them. *)
Theorem transitions_only_append
        (self_name : QName) (c nc : SchemaConstraintTableConstraint)
        (cmds : list Command) :
  snd (AlterTableAddInheritableConstraint_generate self_name c cmds)
  = (cmds
     ++ emitted (AlterTableAddInheritableConstraint_generate self_name c))%list
  /\ snd (AlterTableRenameInheritableConstraint_generate self_name c nc cmds)
     = (cmds
        ++ emitted (AlterTableRenameInheritableConstraint_generate
                      self_name c nc))%list
  /\ snd (AlterTableAlterInheritableConstraint_generate self_name c nc cmds)
     = (cmds
        ++ emitted (AlterTableAlterInheritableConstraint_generate
                      self_name c nc))%list
  /\ snd (AlterTableDropInheritableConstraint_generate self_name c cmds)
     = (cmds
        ++ emitted (AlterTableDropInheritableConstraint_generate
                      self_name c))%list.
Proof.
  split; [|split; [|split]].
  - unfold AlterTableAddInheritableConstraint_generate.
    destruct (delegated c); simpl.
    + now rewrite app_nil_r.
    + apply create_constraint_appends.
  - unfold AlterTableRenameInheritableConstraint_generate.
    destruct (delegated c); simpl.
    + now rewrite app_nil_r.
    + apply rename_constraint_appends.
  - unfold AlterTableAlterInheritableConstraint_generate, alter_constraint.
    destruct (delegated c), (delegated nc); simpl.
    + now rewrite app_nil_r.
    + apply create_constraint_appends.
    + apply drop_constraint_appends.
    + unfold emitted. rewrite !seq_gen_snd.
      rewrite create_constraint_appends, drop_constraint_appends.
      rewrite (create_constraint_appends self_name nc
                 (snd (drop_constraint self_name c []))).
      rewrite (drop_constraint_appends self_name c []). simpl.
      now rewrite app_assoc.
  - unfold AlterTableDropInheritableConstraint_generate.
    destruct (delegated c); simpl.
    + now rewrite app_nil_r.
    + apply drop_constraint_appends.
Qed.

(** X4.  Drop addresses exactly what Create made: for every descriptor the
    triggers Create creates are, by table and name and in the same order,
    the triggers Drop drops; the function Create creates is the function
    Drop drops; the constraint added is the constraint dropped; and every
    trigger Create creates is disabled with [self_only]. *)
Theorem drop_addresses_what_create_made
        (self_name : QName) (c : SchemaConstraintTableConstraint) :
  let created :=
    emitted (AlterTableAddInheritableConstraint_generate self_name c) in
  let dropped :=
    emitted (AlterTableDropInheritableConstraint_generate self_name c) in
  created_triggers created = dropped_triggers dropped
  /\ created_functions created = dropped_functions dropped
  /\ added_constraints created = dropped_constraints dropped
  /\ disabled_triggers created
     = map (fun key => (key, true)) (created_triggers created).
Proof.
  unfold emitted, AlterTableAddInheritableConstraint_generate,
    AlterTableDropInheritableConstraint_generate,
    create_constraint, drop_constraint, seq_gen.
  destruct (delegated c); simpl.
  - repeat split; reflexivity.
  - destruct (is_natively_inherited c); simpl; repeat split; reflexivity.
Qed.

(** X5.  Rename carries the trigger pair and the function from the old
    descriptor's names to the new descriptor's names: when both descriptors
    are materialized with trigger emulation, the triggers renamed are those
    Drop of the old descriptor would drop, their new names are those Drop of
    the new descriptor will drop, the function is renamed between the two
    procedure names, and the function re-created is the one Create of the
    new descriptor creates. *)
Theorem rename_links_old_and_new_names
        (self_name : QName) (c nc : SchemaConstraintTableConstraint)
        (Hc_delegated : delegated c = false)
        (Hnc_delegated : delegated nc = false)
        (Hc_native : is_natively_inherited c = false)
        (Hnc_native : is_natively_inherited nc = false) :
  let renamed :=
    emitted (AlterTableRenameInheritableConstraint_generate self_name c nc) in
  let drop_old :=
    emitted (AlterTableDropInheritableConstraint_generate self_name c) in
  let drop_new :=
    emitted (AlterTableDropInheritableConstraint_generate self_name nc) in
  let create_new :=
    emitted (AlterTableAddInheritableConstraint_generate self_name nc) in
  map fst (renamed_triggers renamed) = dropped_triggers drop_old
  /\ map (fun r => (fst (fst r), snd r)) (renamed_triggers renamed)
     = dropped_triggers drop_new
  /\ renamed_functions renamed
     = combine (dropped_functions drop_old) (dropped_functions drop_new)
  /\ created_functions renamed = created_functions create_new.
Proof.
  unfold emitted, AlterTableRenameInheritableConstraint_generate,
    AlterTableDropInheritableConstraint_generate,
    AlterTableAddInheritableConstraint_generate,
    rename_constraint, create_constraint, drop_constraint, seq_gen.
  rewrite Hc_delegated, Hnc_delegated. simpl.
  rewrite Hc_native, Hnc_native. simpl.
  repeat split; reflexivity.
Qed.

(** X6.  The insert and the update trigger of a descriptor never share a
    name: when the mangler is the identity on names within its identifier
    limit and the raw constraint name followed by the trigger suffix fits
    that limit, Create creates no trigger twice. *)
Theorem created_triggers_distinct
        (limit : nat) (self_name : QName)
        (c : SchemaConstraintTableConstraint)
        (Hmangle : identity_within limit)
        (Hfit : String.length (raw_constraint_name c ++ "_updtrigger")
                <= limit) :
  NoDup (created_triggers
           (emitted (AlterTableAddInheritableConstraint_generate
                       self_name c))).
Proof.
  assert (String.length (raw_constraint_name c ++ "_instrigger") <= limit)
    as Hfit_ins.
  { rewrite length_append in *. exact Hfit. }
  unfold emitted, AlterTableAddInheritableConstraint_generate,
    create_constraint, seq_gen.
  destruct (delegated c); simpl; [constructor|].
  destruct (is_natively_inherited c); simpl; [constructor|].
  constructor.
  - intros [E|[]]. unfold trigger_key in E. simpl in E.
    injection E as E.
    rewrite (Hmangle _ Hfit), (Hmangle _ Hfit_ins) in E.
    apply append_inv_head in E. discriminate E.
  - constructor; [intros []|constructor].
Qed.

End LifecycleMore.

(** ** Rendering: failures, names shared by ADD, DROP and RENAME *)

Section RenderingMore.

Context {pg : PgCommon}.

Lemma numbered_quoted (c : SchemaConstraintTableConstraint) (i : nat) :
  numbered_constraint_name c i true
  = quote_ident (numbered_constraint_name c i false).
Proof. reflexivity. Qed.

Lemma add_chunks_combine (c : SchemaConstraintTableConstraint)
      (l : list string) (n : nat) :
  map (fun '(i, expr) =>
         "ADD CONSTRAINT " ++ numbered_constraint_name c i true
         ++ " " ++ expr)
      (enumerate_from n l)
  = map (fun p => "ADD CONSTRAINT " ++ quote_ident (fst p) ++ " " ++ snd p)
        (combine (map (fun i => numbered_constraint_name c i false)
                      (seq n (List.length l))) l).
Proof.
  revert n. induction l as [|x l IH]; intros n; simpl.
  - reflexivity.
  - now rewrite IH.
Qed.

Lemma drop_chunks_names (c : SchemaConstraintTableConstraint)
      (l : list string) (n : nat) :
  map (fun '(i, _) =>
         "DROP CONSTRAINT " ++ numbered_constraint_name c i true)
      (enumerate_from n l)
  = map (fun name => "DROP CONSTRAINT " ++ quote_ident name)
        (map (fun i => numbered_constraint_name c i false)
             (seq n (List.length l))).
Proof.
  revert n. induction l as [|x l IH]; intros n; simpl.
  - reflexivity.
  - now rewrite IH.
Qed.

Lemma rename_old_names (self_name : QName)
      (c nc : SchemaConstraintTableConstraint) (l : list string) (n : nat) :
  map old_name
      (map (fun '(i, _) =>
              {| rename_table := self_name;
                 old_name := numbered_constraint_name c i false;
                 new_name := numbered_constraint_name nc i false |})
           (enumerate_from n l))
  = map (fun i => numbered_constraint_name c i false)
        (seq n (List.length l)).
Proof.
  revert n. induction l as [|x l IH]; intros n; simpl.
  - reflexivity.
  - now rewrite IH.
Qed.

Lemma nth_error_enumerate_from {A : Type} (l : list A) (n i : nat) :
  nth_error (enumerate_from n l) i
  = option_map (fun x => (n + i, x)) (nth_error l i).
Proof.
  revert n i. induction l as [|x l IH]; intros n [|i]; simpl;
    try reflexivity.
  - now rewrite Nat.add_0_r.
  - rewrite IH. now rewrite Nat.add_succ_r.
Qed.

(** X7.  When the ADD and DROP commands fail.  The ADD command raises
    exactly for a table-wide descriptor whose kind is not unique or that has
    no fragment; the DROP command raises exactly for a table-wide descriptor
    whose kind is not unique.  A table-wide unique descriptor without
    fragments makes ADD raise [IndexError] while DROP still renders a drop
    of the base name. *)
Theorem add_drop_code_failures (c : SchemaConstraintTableConstraint) :
  (raises (AlterTableAddMultiConstraint_code c) <->
   (_scope c <> "row" /\ (_type c <> "unique" \/ _exprdata c = [])))
  /\ (raises (AlterTableDropMultiConstraint_code c) <->
      (_scope c <> "row" /\ _type c <> "unique"))
  /\ (_scope c <> "row" -> _type c = "unique" -> _exprdata c = [] ->
      AlterTableAddMultiConstraint_code c
      = Raise (IndexError "list index out of range")
      /\ AlterTableDropMultiConstraint_code c
         = Ok ("DROP CONSTRAINT " ++ constraint_name c true)).
Proof.
  unfold raises, AlterTableAddMultiConstraint_code,
    AlterTableDropMultiConstraint_code, constraint_code.
  destruct (_scope c =? "row") eqn:Escope.
  - apply String.eqb_eq in Escope. simpl.
    split; [|split].
    + split; [intros [e E]; discriminate E|]. intros [Hn _]. contradiction.
    + split; [intros [e E]; discriminate E|]. intros [Hn _]. contradiction.
    + intros Hn. contradiction.
  - apply String.eqb_neq in Escope.
    destruct (_type c =? "unique") eqn:Etype; simpl.
    + apply String.eqb_eq in Etype. rewrite length_map.
      destruct (_exprdata c) as [|e1 [|e2 es]]; simpl.
      * split; [|split].
        -- split; [intros _; split; [exact Escope|now right]|].
           intros _. eexists. reflexivity.
        -- split; [intros [e E]; discriminate E|].
           intros [_ Hn]. contradiction.
        -- intros _ _ _. split; reflexivity.
      * split; [|split].
        -- split; [intros [e E]; discriminate E|].
           intros [_ [Hn|Hn]]; [contradiction|discriminate Hn].
        -- split; [intros [e E]; discriminate E|].
           intros [_ Hn]. contradiction.
        -- intros _ _ Hn. discriminate Hn.
      * split; [|split].
        -- split; [intros [e E]; discriminate E|].
           intros [_ [Hn|Hn]]; [contradiction|discriminate Hn].
        -- split; [intros [e E]; discriminate E|].
           intros [_ Hn]. contradiction.
        -- intros _ _ Hn. discriminate Hn.
    + apply String.eqb_neq in Etype.
      split; [|split].
      * split; [intros _; split; [exact Escope|now left]|].
        intros _. eexists. reflexivity.
      * split; [intros _; split; assumption|].
        intros _. eexists. reflexivity.
      * intros _ Hn. contradiction.
Qed.

(** X8.  ADD, DROP and RENAME address the same physical names.  Whenever
    the ADD command renders, there is one list of (unquoted) names such that
    ADD adds a constraint under each name in turn, quoted, DROP drops
    exactly these names, quoted and in the same order, and RENAME renames
    exactly these names, unquoted and in the same order. *)
Theorem add_drop_rename_share_names
        (self_name : QName) (c nc : SchemaConstraintTableConstraint)
        (code : string)
        (Hadd : AlterTableAddMultiConstraint_code c = Ok code) :
  exists names texts,
    List.length names = List.length texts
    /\ code
       = join ", "
           (map (fun p =>
                   "ADD CONSTRAINT " ++ quote_ident (fst p) ++ " " ++ snd p)
                (combine names texts))
    /\ AlterTableDropMultiConstraint_code c
       = Ok (join ", "
               (map (fun name => "DROP CONSTRAINT " ++ quote_ident name)
                    names))
    /\ exists renames,
        AlterTableRenameMultiConstraint_generate self_name c nc = Ok renames
        /\ map old_name renames = names.
Proof.
  revert Hadd.
  unfold AlterTableAddMultiConstraint_code,
    AlterTableDropMultiConstraint_code,
    AlterTableRenameMultiConstraint_generate, constraint_code.
  destruct (_scope c =? "row"); simpl.
  - intros Hadd. injection Hadd as <-.
    eexists [constraint_name c false], [_]. simpl.
    split; [reflexivity|]. split; [reflexivity|]. split; [reflexivity|].
    eexists. split; reflexivity.
  - destruct (_type c =? "unique"); simpl; [|discriminate].
    rewrite length_map.
    destruct (_exprdata c) as [|e1 [|e2 es]] eqn:Edata.
    + discriminate.
    + simpl. intros Hadd. injection Hadd as <-.
      exists [constraint_name c false], [unique_expr_code e1]. simpl.
      split; [reflexivity|]. split; [reflexivity|]. split; [reflexivity|].
      eexists. split; reflexivity.
    + rewrite <- Edata.
      assert ((1 <? List.length (_exprdata c))%nat = true) as Hlen.
      { rewrite Edata. reflexivity. }
      rewrite Hlen. intros Hadd. injection Hadd as <-.
      exists (map (fun i => numbered_constraint_name c i false)
                  (seq 0 (List.length (map unique_expr_code (_exprdata c))))),
        (map unique_expr_code (_exprdata c)).
      split; [now rewrite length_map, length_seq|].
      unfold enumerate.
      split; [f_equal; exact (add_chunks_combine c _ 0)|].
      split; [do 2 f_equal; exact (drop_chunks_names c _ 0)|].
      eexists. split; [reflexivity|].
      exact (rename_old_names self_name c nc _ 0).
Qed.

(** X9.  RENAME numbers by the old descriptor.  When the old descriptor's
    text renders, RENAME succeeds with one simple rename per fragment of the
    old descriptor if that is a multi-constraint and with a single rename
    otherwise, each on the altered table; in the multi case the [i]-th
    rename goes from the old descriptor's [i]-th numbered name to the new
    descriptor's [i]-th numbered name.  The new descriptor contributes only
    its constraint id: its fragments, scope and kind are never read. *)
Theorem rename_numbers_by_old_descriptor
        (self_name : QName) (c nc : SchemaConstraintTableConstraint)
        (exprs : PyCode)
        (Hcode : constraint_code c = Ok exprs) :
  exists renames,
    AlterTableRenameMultiConstraint_generate self_name c nc = Ok renames
    /\ List.length renames
       = (if is_multiconstraint c then List.length (_exprdata c) else 1)
    /\ (forall r, In r renames -> rename_table r = self_name)
    /\ (is_multiconstraint c = true ->
        forall i, i < List.length (_exprdata c) ->
                  nth_error renames i
                  = Some {| rename_table := self_name;
                            old_name := numbered_constraint_name c i false;
                            new_name := numbered_constraint_name nc i false |})
    /\ (is_multiconstraint c = false ->
        renames = [{| rename_table := self_name;
                      old_name := constraint_name c false;
                      new_name := constraint_name nc false |}])
    /\ (forall nc' : SchemaConstraintTableConstraint,
           _constr_id nc' = _constr_id nc ->
           AlterTableRenameMultiConstraint_generate self_name c nc'
           = Ok renames).
Proof.
  revert Hcode.
  unfold AlterTableRenameMultiConstraint_generate, constraint_code,
    is_multiconstraint.
  destruct (_scope c =? "row"); simpl.
  - intros _. eexists. split; [reflexivity|]. split; [reflexivity|].
    split; [intros r [<-|[]]; reflexivity|].
    split; [discriminate|]. split; [reflexivity|].
    intros nc' Hid. unfold constraint_name, raw_constraint_name.
    now rewrite Hid.
  - destruct (_type c =? "unique"); simpl; [|discriminate].
    intros _. rewrite length_map.
    destruct (1 <? List.length (_exprdata c))%nat eqn:Hlen.
    + eexists. split; [reflexivity|].
      split; [unfold enumerate;
              now rewrite length_map, enumerate_from_length, length_map|].
      split.
      { intros r Hin. apply in_map_iff in Hin.
        destruct Hin as [[i e] [<- _]]. reflexivity. }
      split.
      { intros _ i Hi. unfold enumerate.
        rewrite nth_error_map, nth_error_enumerate_from, nth_error_map.
        destruct (nth_error (_exprdata c) i) eqn:Enth.
        - reflexivity.
        - apply nth_error_None in Enth. lia. }
      split; [discriminate|].
      intros nc' Hid. f_equal. apply map_ext. intros [i e].
      unfold numbered_constraint_name, raw_constraint_name.
      now rewrite Hid.
    + eexists. split; [reflexivity|]. split; [reflexivity|].
      split; [intros r [<-|[]]; reflexivity|].
      split; [discriminate|]. split; [reflexivity|].
      intros nc' Hid. unfold constraint_name, raw_constraint_name.
      now rewrite Hid.
Qed.

(** X10.  [is_multiconstraint] predicts the split: whenever the constraint
    text renders, the test the ADD, DROP and RENAME commands make on it (a
    list with more than one element) has the value of
    [is_multiconstraint]. *)
Theorem is_multiconstraint_matches_split
        (c : SchemaConstraintTableConstraint) (exprs : PyCode)
        (Hcode : constraint_code c = Ok exprs) :
  is_multi_code exprs = is_multiconstraint c.
Proof.
  revert Hcode. unfold constraint_code, is_multiconstraint.
  destruct (_scope c =? "row"); simpl.
  - intros Hcode. injection Hcode as <-. reflexivity.
  - destruct (_type c =? "unique"); simpl; [|discriminate].
    intros Hcode. injection Hcode as <-. simpl. now rewrite length_map.
Qed.

(** X11.  Over a domain, [constraint_code] returns a text exactly for a
    descriptor with one fragment, and the text is [CHECK (<plain>)]; with no
    fragment or with several it raises [TypeError]. *)
Theorem domain_constraint_code_one_fragment_only
        (c : SchemaConstraintDomainConstraint) :
  (forall code,
      domain_constraint_code c = Ok code <->
      exists e, dom_exprdata c = [e]
                /\ code = "CHECK (" ++ plain (exprdata e) ++ ")")
  /\ (raises (domain_constraint_code c) <->
      List.length (dom_exprdata c) <> 1)
  /\ (List.length (dom_exprdata c) <> 1 ->
      domain_constraint_code c
      = Raise (TypeError "list indices must be integers or slices, not str")).
Proof.
  unfold raises, domain_constraint_code.
  destruct (dom_exprdata c) as [|e1 [|e2 es]]; simpl.
  - split; [|split].
    + intros code. split; [discriminate|]. intros [e [E _]]. discriminate E.
    + split; [intros _; lia|]. intros _. eexists. reflexivity.
    + reflexivity.
  - split; [|split].
    + intros code. split.
      * intros E. injection E as <-. exists e1. split; reflexivity.
      * intros [e [E ->]]. injection E as <-. reflexivity.
    + split; [intros [e E]; discriminate E|]. intros Hn. now contradiction Hn.
    + intros Hn. now contradiction Hn.
  - split; [|split].
    + intros code. split; [discriminate|]. intros [e [E _]]. discriminate E.
    + split; [intros _; lia|]. intros _. eexists. reflexivity.
    + reflexivity.
Qed.

(** X12.  A row-scope table descriptor always renders, whatever its kind:
    [CHECK (<plain>)] for one fragment, the parenthesised fragments joined
    by [AND] for several, and [CHECK (())] for none. *)
Theorem row_scope_check_text
        (c : SchemaConstraintTableConstraint)
        (Hrow : _scope c = "row") :
  constraint_code c
  = Ok (PyStr
          match _exprdata c with
          | [] => "CHECK (())"
          | [e] => "CHECK (" ++ plain (exprdata e) ++ ")"
          | es => "CHECK ((" ++ join ") AND ("
                                  (map (fun e => plain (exprdata e)) es)
                  ++ "))"
          end).
Proof.
  rewrite (constraint_code_row c Hrow).
  destruct (_exprdata c) as [|e1 [|e2 es]]; try reflexivity.
  now rewrite !append_assoc.
Qed.

End RenderingMore.

(** ** Comments attached by [generate_extra] *)

Section CommentsMore.

Context {pg : PgCommon}.

Variable get_subject_type : SchemaConstraintTableConstraint -> string.

(** X13.  The comments of an ADD follow its clauses.  When the constraint
    text renders, [generate_extra] attaches one comment per fragment of a
    multi-constraint, the [i]-th on the numbered item [i], whose identifier
    starts with the quoted name of the [i]-th ADD clause, and a single
    comment on the constraint itself otherwise; every comment carries the
    raw constraint name as its text. *)
Theorem add_comments_follow_clauses
        (c : SchemaConstraintTableConstraint) (exprs : PyCode)
        (Hcode : constraint_code c = Ok exprs) :
  exists comments,
    AlterTableAddMultiConstraint_generate_extra c = Ok comments
    /\ List.length comments
       = (if is_multiconstraint c then List.length (_exprdata c) else 1)
    /\ (forall cm, In cm comments -> comment_text cm = raw_constraint_name c)
    /\ (is_multiconstraint c = true ->
        forall i, i < List.length (_exprdata c) ->
                  let item := {| item_constraint := c; index := i |} in
                  nth_error comments i
                  = Some {| comment_object := OnItem item;
                            comment_text := raw_constraint_name c |}
                  /\ MultiConstraintItem_get_id get_subject_type item
                     = numbered_constraint_name c i true ++ " ON "
                       ++ get_subject_type c ++ " "
                       ++ get_subject_name (_subject_name c))
    /\ (is_multiconstraint c = false ->
        comments = [ConstraintCommon_generate_extra c]).
Proof.
  revert Hcode.
  unfold AlterTableAddMultiConstraint_generate_extra, constraint_code,
    is_multiconstraint.
  destruct (_scope c =? "row"); simpl.
  - intros _. eexists. split; [reflexivity|]. split; [reflexivity|].
    split; [intros cm [<-|[]]; reflexivity|].
    split; [discriminate|]. reflexivity.
  - destruct (_type c =? "unique"); simpl; [|discriminate].
    intros _. rewrite length_map.
    destruct (1 <? List.length (_exprdata c))%nat eqn:Hlen.
    + eexists. split; [reflexivity|].
      split; [unfold enumerate;
              now rewrite length_map, enumerate_from_length, length_map|].
      split.
      { intros cm Hin. apply in_map_iff in Hin.
        destruct Hin as [[i e] [<- _]]. reflexivity. }
      split; [|discriminate].
      intros _ i Hi. split; [|reflexivity].
      unfold enumerate.
      rewrite nth_error_map, nth_error_enumerate_from, nth_error_map.
      destruct (nth_error (_exprdata c) i) eqn:Enth.
      * reflexivity.
      * apply nth_error_None in Enth. lia.
    + eexists. split; [reflexivity|]. split; [reflexivity|].
      split; [intros cm [<-|[]]; reflexivity|].
      split; [discriminate|]. reflexivity.
Qed.

(** X14.  After a rename the comments are those of the new descriptor:
    [generate_extra] of the rename group attaches exactly the comments an
    ADD of the new descriptor attaches, numbered by the new descriptor's own
    fragments, and never reads the old descriptor. *)
Theorem rename_comments_are_those_of_new
        (c c' nc : SchemaConstraintTableConstraint) :
  AlterTableRenameMultiConstraint_generate_extra c nc
  = AlterTableAddMultiConstraint_generate_extra nc
  /\ AlterTableRenameMultiConstraint_generate_extra c nc
     = AlterTableRenameMultiConstraint_generate_extra c' nc.
Proof.
  split; reflexivity.
Qed.

End CommentsMore.

(** ** Role membership *)

Section RoleMembership.

Context {pg : PgCommon}.

(** X15.  Membership in the role statements.  [CreateRole] renders the
    text of [_render] after [CREATE], then a blank, then [IN ROLE] with the
    quoted member names joined by [", "]; with no membership ([None] or the
    empty list) the statement ends in that blank.  [AlterRole] renders the
    same [_render] text after [ALTER] and does not depend on the
    membership. *)
Theorem create_role_membership (r : Role) :
  CreateRole_code (with_membership r None) = "CREATE " ++ _render r ++ " "
  /\ CreateRole_code (with_membership r (Some []))
     = "CREATE " ++ _render r ++ " "
  /\ (forall m ms,
         CreateRole_code (with_membership r (Some (m :: ms)))
         = "CREATE " ++ _render r ++ " " ++ "IN ROLE "
           ++ join ", " (map quote_ident (m :: ms)))
  /\ (forall m,
         AlterRole_code (with_membership r m) = "ALTER " ++ _render r).
Proof.
  repeat split; reflexivity.
Qed.

End RoleMembership.

(** ** The further properties at concrete descriptors *)

Lemma rename_emits_constraint_function_triggers_witness :
  delegated unique2 = false
  /\ is_natively_inherited unique2 = false
  /\ List.length
       (emitted (AlterTableRenameInheritableConstraint_generate
                   (pg := plain_common) accounts unique2 unique2_long)) = 5.
Proof.
  split; [reflexivity|]. split; [reflexivity|].
  rewrite (rename_emits_constraint_function_triggers (pg := plain_common)
             accounts unique2 unique2_long eq_refl eq_refl).
  reflexivity.
Defined.

Lemma natively_inherited_emits_constraint_only_witness :
  delegated row_check2 = false
  /\ _type row_check2 = "check"
  /\ emitted (AlterTableAddInheritableConstraint_generate
                (pg := plain_common) accounts row_check2)
     = [AlterTable accounts [AlterTableAddMultiConstraint row_check2]].
Proof.
  split; [reflexivity|]. split; [reflexivity|].
  exact (proj1 (natively_inherited_emits_constraint_only
                  (pg := plain_common) accounts row_check2 row_check2
                  eq_refl eq_refl)).
Defined.

Lemma rename_links_old_and_new_names_witness :
  map fst (renamed_triggers
             (emitted (AlterTableRenameInheritableConstraint_generate
                         (pg := plain_common) accounts unique2 unique2_long)))
  = dropped_triggers
      (emitted (AlterTableDropInheritableConstraint_generate
                  (pg := plain_common) accounts unique2)).
Proof.
  exact (proj1 (rename_links_old_and_new_names (pg := plain_common)
                  accounts unique2 unique2_long
                  eq_refl eq_refl eq_refl eq_refl)).
Defined.

Lemma created_triggers_distinct_witness :
  String.length (raw_constraint_name unique2_uuid ++ "_updtrigger") <= 63
  /\ NoDup (created_triggers
              (emitted (AlterTableAddInheritableConstraint_generate
                          (pg := plain_common) accounts unique2_uuid))).
Proof.
  assert (String.length (raw_constraint_name unique2_uuid ++ "_updtrigger")
          <= 63) as Hfit.
  { vm_compute. lia. }
  split; [exact Hfit|].
  exact (created_triggers_distinct (pg := plain_common) 63 accounts
           unique2_uuid (plain_identity_within 63) Hfit).
Defined.

Lemma add_drop_code_failures_witness :
  AlterTableAddMultiConstraint_code (pg := plain_common) unique0
  = Raise (IndexError "list index out of range")
  /\ AlterTableDropMultiConstraint_code (pg := plain_common) unique0
     = Ok ("DROP CONSTRAINT " ++ constraint_name (pg := plain_common)
                                                unique0 true).
Proof.
  destruct (add_drop_code_failures (pg := plain_common) unique0)
    as [_ [_ Hempty]].
  exact (Hempty relation_not_row eq_refl eq_refl).
Defined.

Lemma add_drop_rename_share_names_witness :
  exists (code : string) (names texts : list string),
    AlterTableAddMultiConstraint_code (pg := plain_common) unique2 = Ok code
    /\ List.length names = List.length texts
    /\ AlterTableDropMultiConstraint_code (pg := plain_common) unique2
       = Ok (join ", "
               (map (fun name =>
                       "DROP CONSTRAINT "
                       ++ quote_ident (PgCommon := plain_common) name)
                    names)).
Proof.
  eexists.
  destruct (add_drop_rename_share_names (pg := plain_common)
              accounts unique2 unique2_long _ eq_refl)
    as [names [texts [Hlen [_ [Hdrop _]]]]].
  exists names, texts. split; [reflexivity|]. split; [exact Hlen|exact Hdrop].
Defined.

Lemma rename_numbers_by_old_descriptor_witness :
  exists renames,
    AlterTableRenameMultiConstraint_generate (pg := plain_common)
      accounts unique2 unique1 = Ok renames
    /\ List.length renames = 2.
Proof.
  destruct (rename_numbers_by_old_descriptor (pg := plain_common)
              accounts unique2 unique1 _ eq_refl)
    as [renames [Hgen [Hlen _]]].
  exists renames. split; [exact Hgen|exact Hlen].
Defined.

Lemma is_multiconstraint_matches_split_witness :
  is_multi_code (PyList ["UNIQUE (a, b)"; "EXCLUDE (lower(a) WITH =)"])
  = is_multiconstraint unique2.
Proof.
  exact (is_multiconstraint_matches_split unique2 _ eq_refl).
Defined.

Lemma domain_constraint_code_one_fragment_only_witness :
  domain_constraint_code domain_check1 = Ok "CHECK (a > 0)"
  /\ domain_constraint_code domain_check2
     = Raise (TypeError "list indices must be integers or slices, not str").
Proof.
  split.
  - destruct (domain_constraint_code_one_fragment_only domain_check1)
      as [Hok _].
    apply Hok. exists expr_pos. split; reflexivity.
  - destruct (domain_constraint_code_one_fragment_only domain_check2)
      as [_ [_ Hraise]].
    apply Hraise. simpl. discriminate.
Defined.

Lemma row_scope_check_text_witness :
  constraint_code row_check2 = Ok (PyStr "CHECK ((a > 0) AND (a < 10))").
Proof.
  exact (row_scope_check_text row_check2 eq_refl).
Defined.

Lemma add_comments_follow_clauses_witness :
  exists comments,
    AlterTableAddMultiConstraint_generate_extra unique2 = Ok comments
    /\ List.length comments = 2.
Proof.
  destruct (add_comments_follow_clauses (pg := plain_common)
              (fun _ => "TABLE") unique2 _ eq_refl)
    as [comments [Hgen [Hlen _]]].
  exists comments. split; [exact Hgen|exact Hlen].
Defined.
